(** * esy-plots: the [DataPreparer] of [data/preparation.py]

    A shallow embedding of [column_metadata] and of the class
    [DataPreparer] (groups of indexed tables with per-column metadata,
    written to one HDF5 container), together with the properties of the
    specification that concern them.

    Python objects are modelled as follows.
    - labels (column names, index names, [Series.name]) and metadata values
      are [pyval]: [None], a [str] or an [int];
    - a [dict] is an association list in insertion order ([PyDict]);
    - the outer metadata dict handed to [init_data_group] is an object on a
      heap, because the preparer keeps the caller's dict and mutates it with
      [update];
    - methods that read or write [self.datasets] run in the monad [M]
      (state passing with exceptions); static methods are pure functions
      into [result];
    - pandas tables hold integer index labels and integer cells, stored as
      [int64] or, in a column with a missing cell, as [float64]; a missing
      cell (NaN) is [None]. *)

From Stdlib Require Import ZArith List String Ascii Bool Lia Sorted.
From stdpp Require Import base decidable list strings pretty.
Import ListNotations.

Local Open Scope string_scope.
Local Open Scope Z_scope.
Local Open Scope list_scope.

(** ** Python values and strings *)

Inductive pyval : Type :=
  | PyNone
  | PyStr (s : string)
  | PyInt (z : Z).

#[global] Instance pyval_eq_dec : EqDecision pyval.
Proof. solve_decision. Defined.

(** [str(v)], as an f-string renders [{v}]. *)
Definition py_str (v : pyval) : string :=
  match v with
  | PyNone => "None"
  | PyStr s => s
  | PyInt z => pretty z
  end.

Module Str.

(** [sub in s] on Python strings: [sub] occurs in [s] as a substring. *)
Fixpoint contains (sub s : string) : bool :=
  String.prefix sub s ||
  match s with
  | EmptyString => false
  | String _ s' => contains sub s'
  end.

(** [s.endswith(suffix)]. *)
Fixpoint endswith (s suffix : string) : bool :=
  String.eqb s suffix ||
  match s with
  | EmptyString => false
  | String _ s' => endswith s' suffix
  end.

Definition lower_ascii (c : ascii) : ascii :=
  let n := nat_of_ascii c in
  if ((65 <=? n)%nat && (n <=? 90)%nat)%bool then ascii_of_nat (n + 32) else c.

(** [s.lower()] on ASCII text. *)
Fixpoint lower (s : string) : string :=
  match s with
  | EmptyString => EmptyString
  | String c s' => String (lower_ascii c) (lower s')
  end.

(** The characters [str.strip()] removes from ASCII text. *)
Definition is_space (c : ascii) : bool :=
  let n := nat_of_ascii c in
  ((n =? 32)%nat || ((9 <=? n)%nat && (n <=? 13)%nat) ||
   ((28 <=? n)%nat && (n <=? 31)%nat))%bool.

(** [s.strip() == ""]. *)
Fixpoint blank (s : string) : bool :=
  match s with
  | EmptyString => true
  | String c s' => is_space c && blank s'
  end.

End Str.

(** ** Dictionaries in insertion order *)

Module PyDict.
Section Dict.
Context {K V : Type} `{EqDecision K}.

Definition keys (d : list (K * V)) : list K := map fst d.

(** [d.get(k)] *)
Fixpoint get (k : K) (d : list (K * V)) : option V :=
  match d with
  | [] => None
  | (k', v) :: d' => if decide (k = k') then Some v else get k d'
  end.

(** [k in d] *)
Definition mem (k : K) (d : list (K * V)) : bool := bool_decide (k ∈ keys d).

(** [d[k] = v]: an existing key keeps its place, a new one goes last. *)
Fixpoint set (k : K) (v : V) (d : list (K * V)) : list (K * V) :=
  match d with
  | [] => [(k, v)]
  | (k', v') :: d' =>
      if decide (k = k') then (k, v) :: d' else (k', v') :: set k v d'
  end.

(** [d.update(other)] *)
Definition update (d other : list (K * V)) : list (K * V) :=
  fold_left (fun acc kv => set (fst kv) (snd kv) acc) other d.

End Dict.
End PyDict.

(** ** Metadata *)

Inductive Metadatum : Type := Label | Unit.

#[global] Instance Metadatum_eq_dec : EqDecision Metadatum.
Proof. solve_decision. Defined.

(** [enum.name] *)
Definition Metadatum_name (m : Metadatum) : string :=
  match m with
  | Label => "Label"
  | Unit => "Unit"
  end.

(** A metadata record, [Dict[Metadatum, str]]. *)
Abbreviation metadata := (list (Metadatum * pyval)).

(** [column_metadata(label, unit=None)]: the dict literal
    [{Metadatum.Label: label, Metadatum.Unit: unit}]. *)
Definition column_metadata (label : pyval) (unit : pyval) : metadata :=
  [(Label, label); (Unit, unit)].

(** The call without the keyword argument. *)
Definition column_metadata_default (label : pyval) : metadata :=
  column_metadata label PyNone.

(** ** Exceptions *)

Inductive exn : Type :=
  | DataPreparationException (msg : string)
  | OtherException (cls : string).   (* an exception of pandas or of Python itself *)

Inductive result (A : Type) : Type :=
  | Ok (a : A)
  | Raise (e : exn).

Arguments Ok {A} a.
Arguments Raise {A} e.

Definition is_DataPreparationException {A} (r : result A) : bool :=
  match r with
  | Raise (DataPreparationException _) => true
  | _ => false
  end.

(** ** The pandas operations the source calls

    Index names of a concatenation follow pandas 2: a level keeps its name
    when both operands agree on it and becomes [None] otherwise.  pandas
    raises [InvalidIndexError] when it has to reindex an axis that holds
    duplicate labels.  [concat] leaves out a frame without rows and
    columns.

    A column without NaN holds [int64] numbers, a column with NaN holds
    [float64] numbers: an integer is then stored as the nearest number
    with 53 significant bits.  Sums of [int64] wrap around; sums of
    [float64] are compensated sums whose every step is rounded.  Numbers
    beyond the range of [float64] are not modelled. *)

Module pd.

(** One index entry: an integer per index level. *)
Abbreviation key := (list Z).
(** A cell; [None] is NaN. *)
Abbreviation cell := (option Z).

(** A Series of integers; one that holds a NaN is a [float64] Series. *)
Record Series : Type := {
  name : pyval;
  index_names_s : list pyval;          (* [series.index.names] *)
  values : list (key * cell)           (* index entry and value, in order *)
}.

Record DataFrame : Type := {
  index_names : list pyval;            (* [frame.index.names] *)
  columns : list pyval;                (* [frame.columns], duplicates possible *)
  rows : list (key * list cell)        (* index entry and one cell per column *)
}.

Definition keys {A} (l : list (key * A)) : list key := map fst l.

(** The label a Series gets as the column of a frame: its name, or [0]
    when it has none. *)
Definition column_label (n : pyval) : pyval :=
  match n with
  | PyNone => PyInt 0
  | _ => n
  end.

Definition unanimous_names (a b : list pyval) : list pyval :=
  if decide (length a = length b)
  then zip_with (fun x y => if decide (x = y) then x else PyNone) a b
  else [PyNone].

(** [df = pd.DataFrame(columns=key_columns); df.set_index(key_columns, inplace=True)];
    pandas 1 and 2 refuse an index without levels. *)
Definition empty_indexed (key_columns : list pyval) : result DataFrame :=
  match key_columns with
  | [] => Raise (OtherException "ValueError")
  | _ => Ok {| index_names := key_columns; columns := []; rows := [] |}
  end.

(** *** Numbers *)

Definition in_int64 (z : Z) : bool := (- 2 ^ 63 <=? z) && (z <? 2 ^ 63).

(** An [int64] result: the value modulo [2^64], in [-2^63 .. 2^63-1]. *)
Definition wrap64 (z : Z) : Z := (z + 2 ^ 63) mod 2 ^ 64 - 2 ^ 63.

(** The [float64] nearest to an integer (ties to the even mantissa). *)
Definition round_f64 (z : Z) : Z :=
  let a := Z.abs z in
  if a <=? 2 ^ 53 then z
  else
    let e := Z.log2 a - 52 in
    let q := a / 2 ^ e in
    let r := a mod 2 ^ e in
    let half := 2 ^ (e - 1) in
    let q' := if (half <? r) || ((r =? half) && Z.odd q) then q + 1 else q in
    Z.sgn z * (q' * 2 ^ e).

Definition fadd (a b : Z) : Z := round_f64 (a + b).
Definition fsub (a b : Z) : Z := round_f64 (a - b).

(** The cells of column [j], and the numbers among cells. *)
Definition column_cells (j : nat) (rs : list (key * list cell)) : list cell :=
  map (fun r => nth j (snd r) None) rs.

Fixpoint present (cells : list cell) : list Z :=
  match cells with
  | [] => []
  | Some z :: cells' => z :: present cells'
  | None :: cells' => present cells'
  end.

(** The number type is not kept with the table: a column is [float64]
    when it holds a NaN or a number beyond [int64], as a sum of [float64]
    numbers can be. *)
Definition is_float (cells : list cell) : bool :=
  existsb (fun c => match c with
                    | None => true
                    | Some z => negb (in_int64 z)
                    end) cells.

(** The cells of a row, with those of [float64] columns stored as
    [float64]. *)
Fixpoint round_where (floats : nat -> bool) (j : nat) (cells : list cell) : list cell :=
  match cells with
  | [] => []
  | c :: cells' =>
      (if floats j then option_map round_f64 c else c) :: round_where floats (S j) cells'
  end.

Definition as_stored (rs : list (key * list cell)) : list (key * list cell) :=
  map (fun r => (fst r, round_where (fun j => is_float (column_cells j rs)) 0 (snd r))) rs.

(** A frame without rows and columns. *)
Definition is_empty (rs : list (key * list cell)) (cols : list pyval) : bool :=
  match rs, cols with
  | [], [] => true
  | _, _ => false
  end.

(** [pd.DataFrame(series)] *)
Definition to_frame (s : Series) : DataFrame :=
  {| index_names := index_names_s s;
     columns := [column_label (name s)];
     rows := map (fun kv => (fst kv, [snd kv])) (values s) |}.

(** [pd.concat([container, other], axis=0)] for a one-column [other]:
    the rows of [other] go below those of [container]; the columns are
    the union, a cell without a value is NaN.  An empty [container] is
    left out, so that the result is [other]. *)
Definition concat_rows (container other : DataFrame) : result DataFrame :=
  let c := hd PyNone (columns other) in
  if is_empty (rows container) (columns container) then Ok other
  else if bool_decide (NoDup (columns container)) then
    let known := bool_decide (c ∈ columns container) in
    let cols := if known then columns container else columns container ++ [c] in
    Ok {| index_names := unanimous_names (index_names container) (index_names other);
          columns := cols;
          rows :=
            as_stored
              (map (fun r => (fst r, if known then snd r else snd r ++ [None]))
                   (rows container)
               ++ map (fun r => (fst r,
                                 map (fun c' => if decide (c' = c) then hd None (snd r) else None)
                                     cols))
                      (rows other)) |}
  else Raise (OtherException "InvalidIndexError").

(** [pd.concat([container, column], axis=1)]: the column goes to the
    right of those of [container]; rows are aligned on the index (outer
    join, entries of [container] first).  An empty [container] is left
    out, so that the result is the frame of [column]. *)
Definition concat_columns (container : DataFrame) (column : Series) : result DataFrame :=
  let names := unanimous_names (index_names container) (index_names_s column) in
  let cols := columns container ++ [column_label (name column)] in
  if is_empty (rows container) (columns container) then Ok (to_frame column)
  else if bool_decide (keys (rows container) = keys (values column)) then
    Ok {| index_names := names;
          columns := cols;
          rows := zip_with (fun r kv => (fst r, snd r ++ [snd kv]))
                           (rows container) (values column) |}
  else if bool_decide (NoDup (keys (rows container)))
          && bool_decide (NoDup (keys (values column))) then
    let new := filter (fun k => k ∉ keys (rows container)) (keys (values column)) in
    Ok {| index_names := names;
          columns := cols;
          rows :=
            as_stored
              (map (fun k =>
                      (k, default (replicate (length (columns container)) None)
                                  (PyDict.get k (rows container))
                          ++ [default None (PyDict.get k (values column))]))
                   (keys (rows container) ++ new)) |}
  else Raise (OtherException "InvalidIndexError").

(** Index entries in ascending order, each once. *)
Fixpoint key_compare (a b : key) : comparison :=
  match a, b with
  | [], [] => Eq
  | [], _ :: _ => Lt
  | _ :: _, [] => Gt
  | x :: a', y :: b' =>
      match Z.compare x y with
      | Eq => key_compare a' b'
      | c => c
      end
  end.

Fixpoint insert_key (k : key) (l : list key) : list key :=
  match l with
  | [] => [k]
  | x :: l' =>
      match key_compare k x with
      | Lt => k :: l
      | Eq => l
      | Gt => x :: insert_key k l'
      end
  end.

Definition group_keys (ks : list key) : list key := fold_right insert_key [] ks.

(** The rows of one group. *)
Definition group (k : key) (rs : list (key * list cell)) : list (key * list cell) :=
  filter (fun r => fst r = k) rs.

(** The sum of [int64] numbers: every addition wraps around. *)
Definition int64_sum (vals : list Z) : Z :=
  fold_left (fun sumx val => wrap64 (sumx + val)) vals 0.

(** The sum of [float64] numbers as the grouped sum computes it:
    [y = val - compensation; t = sumx + y;
     compensation = t - sumx - y; sumx = t]. *)
Fixpoint kahan_sum (sumx compensation : Z) (vals : list Z) : Z :=
  match vals with
  | [] => sumx
  | val :: vals' =>
      let y := fsub val compensation in
      let t := fadd sumx y in
      kahan_sum t (fsub (fsub t sumx) y) vals'
  end.

Definition float64_sum (vals : list Z) : Z := kahan_sum 0 0 (map round_f64 vals).

(** The sum of column [j] over the group [k], NaN skipped, in the number
    type of the column. *)
Definition group_sum (j : nat) (rs : list (key * list cell)) (k : key) : Z :=
  let vals := present (column_cells j (group k rs)) in
  if is_float (column_cells j rs) then float64_sum vals else int64_sum vals.

(** [data.groupby(list(data.index.names)).sum()]: one row per distinct
    index entry, in ascending order, holding the sums of the group.  The
    names must refer to index levels only. *)
Definition groupby_index_sum (data : DataFrame) : result DataFrame :=
  if bool_decide (PyNone ∈ index_names data) then
    Raise (OtherException "TypeError")
  else if existsb (fun n => bool_decide (n ∈ columns data)) (index_names data) then
    Raise (OtherException "ValueError")
  else
    Ok {| index_names := index_names data;
          columns := columns data;
          rows :=
            map (fun k =>
                   (k, map (fun j => Some (group_sum j (rows data) k))
                           (seq 0 (length (columns data)))))
                (group_keys (keys (rows data))) |}.

End pd.

(** ** JSON documents and the HDF5 container *)

#[local] Set Warnings "-register-all".

Inductive json : Type :=
  | JNull
  | JString (s : string)
  | JNumber (z : Z)
  | JObject (members : list (string * json)).

Definition json_of_pyval (v : pyval) : json :=
  match v with
  | PyNone => JNull
  | PyStr s => JString s
  | PyInt z => JNumber z
  end.

(** The text [json.dumps] writes for a dict key. *)
Definition json_key (k : pyval) : string :=
  match k with
  | PyNone => "null"
  | PyStr s => s
  | PyInt z => pretty z
  end.

(** [dumps(metadata, ensure_ascii=False).encode('utf8')], kept as the
    document the text denotes. *)
Definition dumps (d : list (pyval * list (string * pyval))) : json :=
  JObject (map (fun kv => (json_key (fst kv),
                           JObject (map (fun fv => (fst fv, json_of_pyval (snd fv))) (snd kv))))
               d).


(** One stored table with the attribute [plot_metadata] of its storer. *)
Record node : Type := {
  table : pd.DataFrame;
  plot_metadata : option json
}.

Record HDFStore : Type := {
  path : string;
  nodes : list (string * node)
}.

(** [store.put(key=key, value=value)] in the fixed format: the root node
    cannot be replaced, and the column labels of a stored table are
    distinct.  The order in which the container lists its nodes is not
    modelled. *)
Definition put (key : string) (value : pd.DataFrame) (store : HDFStore) : result HDFStore :=
  if bool_decide (key ∈ [EmptyString; "/"]) then Raise (OtherException "NodeError")
  else if bool_decide (NoDup (pd.columns value)) then
    Ok {| path := path store;
          nodes := PyDict.set key {| table := value; plot_metadata := None |} (nodes store) |}
  else Raise (OtherException "ValueError").

(** [store.get_storer(key=key).attrs.plot_metadata = doc] *)
Definition set_plot_metadata (key : string) (doc : json) (store : HDFStore) : HDFStore :=
  match PyDict.get key (nodes store) with
  | Some n =>
      {| path := path store;
         nodes := PyDict.set key {| table := table n; plot_metadata := Some doc |}
                             (nodes store) |}
  | None => store
  end.

(** ** The preparer's state *)

(** [Dict[str, Dict[Metadatum, str]]]: column name to metadata record. *)
Abbreviation metadata_dict := (list (pyval * option metadata)).

(** A reference to a [metadata_dict] on the heap. *)
Abbreviation ref := nat.

(** [self.datasets[group]]: the slots [_Type.Data] and [_Type.Metadata]. *)
Record dataset : Type := {
  Data : pd.DataFrame;
  Metadata : ref
}.

Record state : Type := {
  heap : list metadata_dict;
  datasets : list (string * dataset)       (* [self.datasets] *)
}.

(** [DataPreparer()] on a given heap. *)
Definition new_preparer (h : list metadata_dict) : state :=
  {| heap := h; datasets := [] |}.

(** What a caller passes as a column or as rows: a Series, or a DataFrame
    with the columns [first :: others] over one index. *)
Inductive data_arg : Type :=
  | ASeries (s : pd.Series)
  | AFrame (first : pd.Series) (others : list pd.Series).

(** [arg.index.names] *)
Definition arg_index_names (a : data_arg) : list pyval :=
  match a with
  | ASeries s => pd.index_names_s s
  | AFrame first _ => pd.index_names_s first
  end.

(** What [squeeze()] leaves of a one-column frame. *)
Inductive squeezed : Type :=
  | IsSeries (s : pd.Series)
  | IsScalar (v : pd.cell).

(** ** State passing with exceptions *)

Definition M (A : Type) : Type := state -> result A * state.

Definition ret {A} (a : A) : M A := fun s => (Ok a, s).

Definition bind {A B} (m : M A) (k : A -> M B) : M B :=
  fun s =>
    match m s with
    | (Ok a, s') => k a s'
    | (Raise e, s') => (Raise e, s')
    end.

Definition raise {A} (e : exn) : M A := fun s => (Raise e, s).

Definition lift {A} (r : result A) : M A := fun s => (r, s).

Definition gets {A} (f : state -> A) : M A := fun s => (Ok (f s), s).

Definition modify (f : state -> state) : M unit := fun s => (Ok tt, f s).

Notation "x <- c1 ;; c2" := (bind c1 (fun x => c2))
  (at level 100, c1 at next level, right associativity).
Notation "c1 ;; c2" := (bind c1 (fun _ => c2))
  (at level 100, right associativity).

(** [self.datasets[group]] *)
Definition get_dataset (group : string) : M dataset :=
  ds <- gets datasets ;;
  match PyDict.get group ds with
  | Some item => ret item
  | None => raise (OtherException "KeyError")
  end.

(** The dict a reference points to; a reference outside the heap stands for
    an argument that is no dict. *)
Definition deref (r : ref) : M metadata_dict :=
  h <- gets heap ;;
  match h !! r with
  | Some d => ret d
  | None => raise (OtherException "AttributeError")
  end.

(** [self.datasets[group] = item] *)
Definition set_dataset (group : string) (item : dataset) : M unit :=
  modify (fun s => {| heap := heap s; datasets := PyDict.set group item (datasets s) |}).

(** [self.datasets[group][_Type.Data] = data] *)
Definition set_data (group : string) (data : pd.DataFrame) : M unit :=
  item <- get_dataset group ;;
  set_dataset group {| Data := data; Metadata := Metadata item |}.

(** [self.datasets[group][_Type.Metadata].update({column: md})] *)
Definition update_metadata (group : string) (column : pyval) (md : option metadata) : M unit :=
  item <- get_dataset group ;;
  d <- deref (Metadata item) ;;
  modify (fun s => {| heap := <[Metadata item := PyDict.update d [(column, md)]]> (heap s);
                      datasets := datasets s |}).

(** ** class DataPreparer *)

Module DataPreparer.

(** [_group_by_index(data)] *)
Definition _group_by_index (data : pd.DataFrame) : result pd.DataFrame :=
  pd.groupby_index_sum data.

(** [_convert_enums(metadata)]: the inner keys become [enum.name.lower()];
    an entry that is [None] has no [items()]. *)
Fixpoint _convert_enums (md : metadata_dict) : result (list (pyval * list (string * pyval))) :=
  match md with
  | [] => Ok []
  | (k, None) :: _ => Raise (OtherException "AttributeError")
  | (k, Some entries) :: rest =>
      match _convert_enums rest with
      | Ok rest' =>
          Ok ((k, map (fun ev => (Str.lower (Metadatum_name (fst ev)), snd ev)) entries)
              :: rest')
      | Raise e => Raise e
      end
  end.

Definition extensions : list string := ["h5"; "hdf5"; "he5"].

(** The file name [save_to_file] opens. *)
Definition out_path (out_file_path : string) : string :=
  if negb (existsb (fun extension => Str.contains extension out_file_path) extensions)
  then (out_file_path ++ ".hdf5")%string
  else out_file_path.

(** The loop of [save_to_file] over [self.datasets.items()]. *)
Fixpoint write_items (h : list metadata_dict) (items : list (string * dataset))
                     (store : HDFStore) : result unit * HDFStore :=
  match items with
  | [] => (Ok tt, store)
  | (key, item) :: rest =>
      match _group_by_index (Data item) with
      | Raise e => (Raise e, store)
      | Ok value =>
          match put key value store with
          | Raise e => (Raise e, store)
          | Ok store =>
              match h !! Metadata item with
              | None => (Raise (OtherException "AttributeError"), store)
              | Some md =>
                  match _convert_enums md with
                  | Raise e => (Raise e, store)
                  | Ok metadata =>
                      write_items h rest (set_plot_metadata key (dumps metadata) store)
                  end
              end
          end
      end
  end.

(** [save_to_file(out_file_path)]: the preparer is only read; the result
    is the outcome and the container as it is left on disk. *)
Definition save_to_file (out_file_path : string) (s : state) : result unit * HDFStore :=
  write_items (heap s) (datasets s) {| path := out_path out_file_path; nodes := [] |}.

(** [_assert_group_name_exists(group)] *)
Definition _assert_group_name_exists (group : string) : M unit :=
  ds <- gets datasets ;;
  if negb (PyDict.mem group ds)
  then raise (DataPreparationException ("Group name '" ++ group ++ "' already exists.")%string)
  else ret tt.

(** The loop of [_assert_indexes_match] over [group_index]. *)
Fixpoint find_missing (group_index column_index : list pyval) : result unit :=
  match group_index with
  | [] => Ok tt
  | index_column :: rest =>
      if negb (bool_decide (index_column ∈ column_index))
      then Raise (DataPreparationException
                    ("Index column '" ++ py_str index_column
                     ++ "' not found in index of column to add.")%string)
      else find_missing rest column_index
  end.

(** [_assert_indexes_match(container, column)] *)
Definition _assert_indexes_match (container : pd.DataFrame) (column : data_arg) : result unit :=
  let group_index := pd.index_names container in
  let column_index := arg_index_names column in
  if negb (length group_index =? length column_index)%nat
  then Raise (DataPreparationException
                "Length of index in column to add does not match that of the assigned data group.")
  else find_missing group_index column_index.

(** [_ensure_is_series(series)]: a Series is returned as it is; a frame
    with more than one column is rejected, and one column is squeezed, to
    a Series or, when it holds a single row, to the scalar in it. *)
Definition _ensure_is_series (series : data_arg) : result squeezed :=
  match series with
  | ASeries s => Ok (IsSeries s)
  | AFrame first others =>
      if (1 <? length (first :: others))%nat
      then Raise (DataPreparationException
                    "Given data must be a Series of single-column DataFrame!")
      else
        match pd.values first with
        | [(_, v)] => Ok (IsScalar v)
        | _ => Ok (IsSeries first)
        end
  end.

(** [init_data_group(group, key_metadata)] *)
Definition init_data_group (group : string) (key_metadata : ref) : M unit :=
  ds <- gets datasets ;;
  if PyDict.mem group ds
  then raise (DataPreparationException ("Group name '" ++ group ++ "' already exists.")%string)
  else
    md <- deref key_metadata ;;
    let key_columns := PyDict.keys md in
    empty_df <- lift (pd.empty_indexed key_columns) ;;
    set_dataset group {| Data := empty_df; Metadata := key_metadata |}.

(** [add_value_column(group, column, metadata)]; [pd.concat] takes no
    scalar. *)
Definition add_value_column (group : string) (column : data_arg)
                            (md : option metadata) : M unit :=
  _assert_group_name_exists group ;;
  item <- get_dataset group ;;
  let container := Data item in
  lift (_assert_indexes_match container column) ;;
  column <- lift (_ensure_is_series column) ;;
  match column with
  | IsScalar _ => raise (OtherException "TypeError")
  | IsSeries column =>
      data <- lift (pd.concat_columns container column) ;;
      set_data group data ;;
      update_metadata group (pd.name column) md
  end.

(** [not metadata] is false only for a non-empty dict. *)
Definition metadata_given (md : option metadata) : bool :=
  match md with
  | Some (_ :: _) => true
  | _ => false
  end.

(** [add_value_rows(group, rows, metadata=None)]; a scalar has no
    [name]. *)
Definition add_value_rows (group : string) (rows : data_arg)
                          (md : option metadata) : M unit :=
  _assert_group_name_exists group ;;
  item <- get_dataset group ;;
  let container := Data item in
  lift (_assert_indexes_match container rows) ;;
  rows <- lift (_ensure_is_series rows) ;;
  match rows with
  | IsScalar _ => raise (OtherException "AttributeError")
  | IsSeries rows =>
      (if negb (bool_decide (pd.name rows ∈ pd.columns container))
       then
         if negb (metadata_given md)
         then raise (DataPreparationException
                       ("No metadata specified for new column '" ++ py_str (pd.name rows)
                        ++ "'.")%string)
         else update_metadata group (pd.name rows) md
       else ret tt) ;;
      data <- lift (pd.concat_rows container (pd.to_frame rows)) ;;
      set_data group data
  end.

End DataPreparer.

(** ** Calls, runs and the notions of the specification *)

Import DataPreparer.

(** The three mutating operations as data, to quantify over them. *)
Inductive operation : Type :=
  | InitDataGroup (group : string) (key_metadata : ref)
  | AddValueColumn (group : string) (column : data_arg) (md : option metadata)
  | AddValueRows (group : string) (rows : data_arg) (md : option metadata).

Definition run (op : operation) : M unit :=
  match op with
  | InitDataGroup group key_metadata => init_data_group group key_metadata
  | AddValueColumn group column md => add_value_column group column md
  | AddValueRows group rows md => add_value_rows group rows md
  end.

(** The specification's reading of "the path has a recognized container
    extension": it ends in a dot followed by one of the three suffixes. *)
Definition spec_has_recognized_extension (p : string) : bool :=
  existsb (fun extension => Str.endswith p ("." ++ extension)%string) extensions.

(** The order in which [groupby] lists the index entries. *)
Definition key_lt (a b : pd.key) : Prop := pd.key_compare a b = Lt.



(** The sum of numbers, and the sum of their absolute values. *)
Definition total (vals : list Z) : Z := fold_right Z.add 0 vals.

Definition magnitude (vals : list Z) : Z := fold_right Z.add 0 (map Z.abs vals).







(** The run of the tests and of the specification's round trip: one group
    [Group] keyed by [ColA], and two calls of [add_value_rows] for the
    column [MyValueColumn]. *)
Module Example.

Definition key_metadata : metadata_dict :=
  [(PyStr "ColA", Some (column_metadata_default (PyStr "A")))].

Definition series (k v : Z) : pd.Series :=
  {| pd.name := PyStr "MyValueColumn";
     pd.index_names_s := [PyStr "ColA"];
     pd.values := [([k], Some v)] |}.

Definition some_label : option metadata :=
  Some (column_metadata_default (PyStr "SomeLabel")).

(** The preparer after [init_data_group], and after one call of
    [add_value_rows] on top of that. *)
Definition initial : state :=
  snd (init_data_group "Group" 0%nat (new_preparer [key_metadata])).

Definition one_call (k v : Z) : state :=
  snd (add_value_rows "Group" (ASeries (series k v)) some_label initial).

(** [self.datasets["Group"]] in [initial] and in [one_call k v]. *)
Definition initial_item : dataset :=
  {| Data := {| pd.index_names := [PyStr "ColA"]; pd.columns := []; pd.rows := [] |};
     Metadata := 0%nat |}.

Definition one_call_item (k v : Z) : dataset :=
  {| Data := {| pd.index_names := [PyStr "ColA"];
                pd.columns := [PyStr "MyValueColumn"];
                pd.rows := [([k], [Some v])] |};
     Metadata := 0%nat |}.

(** A series without a name, as [pd.Series(data=[v], index=[k])] with the
    index named [ColA]. *)
Definition unnamed (k v : Z) : pd.Series :=
  {| pd.name := PyNone;
     pd.index_names_s := [PyStr "ColA"];
     pd.values := [([k], Some v)] |}.

(** Two groups created from one dict. *)
Definition two_groups : state :=
  snd ((init_data_group "A" 0%nat ;; init_data_group "B" 0%nat) (new_preparer [key_metadata])).

(** A series whose index is named [ColB]. *)
Definition misnamed : pd.Series :=
  {| pd.name := PyStr "MyValueColumn";
     pd.index_names_s := [PyStr "ColB"];
     pd.values := [([0], Some 0)] |}.



(** [self.datasets["Group"]] in [prepared k1 v1 k2 v2]. *)
Definition prepared_item (k1 v1 k2 v2 : Z) : dataset :=
  {| Data := {| pd.index_names := [PyStr "ColA"];
                pd.columns := [PyStr "MyValueColumn"];
                pd.rows := [([k1], [Some v1]); ([k2], [Some v2])] |};
     Metadata := 0%nat |}.






(** The group [Group] after two calls of [add_value_column] for
    [MyValueColumn]. *)
Definition doubled_column : state :=
  snd ((init_data_group "Group" 0%nat ;;
        add_value_column "Group" (ASeries (series 0 1)) some_label ;;
        add_value_column "Group" (ASeries (series 0 2)) some_label)
         (new_preparer [key_metadata])).


End Example.

(** ** Further notions for the properties of the code *)

(** The group an operation addresses. *)
Definition op_group (op : operation) : string :=
  match op with
  | InitDataGroup group _ => group
  | AddValueColumn group _ _ => group
  | AddValueRows group _ _ => group
  end.

(** No table of the preparer has a column labelled [None]. *)
Definition labels_not_None (s : state) : Prop :=
  forall g item, PyDict.get g (datasets s) = Some item -> PyNone ∉ pd.columns (Data item).

(** Every column of every table has an entry in the metadata dict of its
    group. *)
Definition columns_registered (s : state) : Prop :=
  forall g item (md : metadata_dict) c,
    PyDict.get g (datasets s) = Some item ->
    heap s !! Metadata item = Some md ->
    c ∈ pd.columns (Data item) ->
    c ∈ PyDict.keys md.

(** The column or the rows an operation is given have a name. *)
Definition arg_named (a : data_arg) : Prop :=
  forall r, _ensure_is_series a = Ok (IsSeries r) -> pd.name r <> PyNone.

Definition op_named (op : operation) : Prop :=
  match op with
  | InitDataGroup _ _ => True
  | AddValueColumn _ column _ => arg_named column
  | AddValueRows _ rows _ => arg_named rows
  end.



(** ** class Line of [plots/line.py]

    Only what does not draw: the constructor and [_slice].  The figure of
    [__call__] is built by bokeh from the pair [_slice] returns. *)

Module Line.

Record t : Type := {
  data : pd.DataFrame;
  title : string;
  x_axis_label : string;
  y_axis_label : string;
  legend_label : string;
  figure_kwargs : list (string * pyval);
  line_kwargs : list (string * pyval)
}.

(** [Line(data, title, x_axis_label, y_axis_label, legend_label,
    figure_kwargs, line_kwargs)]: keyword dicts that are [None] become
    empty dicts. *)
Definition __init__ (data : pd.DataFrame) (title x_axis_label y_axis_label legend_label : string)
           (figure_kwargs line_kwargs : option (list (string * pyval))) : t :=
  {| data := data;
     title := title;
     x_axis_label := x_axis_label;
     y_axis_label := y_axis_label;
     legend_label := legend_label;
     figure_kwargs := match figure_kwargs with Some kw => kw | None => [] end;
     line_kwargs := match line_kwargs with Some kw => kw | None => [] end |}.

(** The positions at which a label occurs among the columns, from [i] on. *)
Fixpoint positions (c : pyval) (cols : list pyval) (i : nat) : list nat :=
  match cols with
  | [] => []
  | c' :: cols' =>
      if decide (c' = c) then i :: positions c cols' (S i) else positions c cols' (S i)
  end.

(** [.values]: one value per row for a Series, one list per row for a
    frame. *)
Inductive ndarray : Type :=
  | Values1 (l : list pd.cell)
  | Values2 (l : list (list pd.cell)).

(** [data[option].values]: a label that is no column is a [KeyError]; a
    label of one column selects a Series, a label of several columns the
    frame of these columns. *)
Definition getitem_values (data : pd.DataFrame) (option : pyval) : result ndarray :=
  match positions option (pd.columns data) 0 with
  | [] => Raise (OtherException "KeyError")
  | [j] => Ok (Values1 (map (fun r => nth j (snd r) None) (pd.rows data)))
  | js => Ok (Values2 (map (fun r => map (fun j => nth j (snd r) None) js) (pd.rows data)))
  end.

(** [_slice(option)] *)
Definition _slice (self : t) (option : pyval) : result (list pd.key * ndarray) :=
  let x := pd.keys (pd.rows (data self)) in
  match getitem_values (data self) option with
  | Ok y => Ok (x, y)
  | Raise e => Raise e
  end.

Definition ndarray_length (y : ndarray) : nat :=
  match y with
  | Values1 l => length l
  | Values2 l => length l
  end.

End Line.

(** * Properties *)

(** ** Dictionaries *)

Section DictFacts.
Context {K V : Type} `{EqDecision K}.
Implicit Types (d : list (K * V)) (k : K) (v : V).

Lemma get_Some_keys k v d : PyDict.get k d = Some v -> k ∈ PyDict.keys d.
Proof.
  induction d as [|[k' v'] d IH]; simpl; [discriminate|].
  destruct (decide (k = k')) as [->|]; intros Hg.
  - apply list_elem_of_here.
  - apply list_elem_of_further, IH, Hg.
Qed.

Lemma keys_get k d : k ∈ PyDict.keys d -> exists v, PyDict.get k d = Some v.
Proof.
  induction d as [|[k' v'] d IH]; simpl; intros Hin.
  - inversion Hin.
  - destruct (decide (k = k')) as [->|Hne]; [eauto|].
    apply IH. inversion Hin; subst; [contradiction|assumption].
Qed.

Lemma mem_true k d : PyDict.mem k d = true <-> k ∈ PyDict.keys d.
Proof. unfold PyDict.mem. apply bool_decide_eq_true. Qed.

Lemma get_mem k v d : PyDict.get k d = Some v -> PyDict.mem k d = true.
Proof. intros Hg. apply mem_true. eapply get_Some_keys, Hg. Qed.

Lemma get_set_eq k v d : PyDict.get k (PyDict.set k v d) = Some v.
Proof.
  induction d as [|[k' v'] d IH]; simpl.
  - destruct (decide (k = k)); congruence.
  - destruct (decide (k = k')) as [->|Hne]; simpl.
    + destruct (decide (k' = k')); congruence.
    + destruct (decide (k = k')); congruence.
Qed.

Lemma get_set_ne k k' v d : k <> k' -> PyDict.get k' (PyDict.set k v d) = PyDict.get k' d.
Proof.
  intros Hne. induction d as [|[k0 v0] d IH]; simpl.
  - destruct (decide (k' = k)); congruence.
  - destruct (decide (k = k0)) as [->|Hne0]; simpl.
    + destruct (decide (k' = k0)); congruence.
    + destruct (decide (k' = k0)); congruence.
Qed.

Lemma keys_set_known k v d : k ∈ PyDict.keys d -> PyDict.keys (PyDict.set k v d) = PyDict.keys d.
Proof.
  induction d as [|[k0 v0] d IH]; simpl; intros Hin.
  - inversion Hin.
  - destruct (decide (k = k0)) as [->|Hne]; simpl; [reflexivity|].
    f_equal. apply IH. inversion Hin; subst; [contradiction|assumption].
Qed.

Lemma keys_set_new k v d : k ∉ PyDict.keys d -> PyDict.keys (PyDict.set k v d) = PyDict.keys d ++ [k].
Proof.
  induction d as [|[k0 v0] d IH]; simpl; intros Hin; [reflexivity|].
  destruct (decide (k = k0)) as [->|Hne]; simpl.
  - exfalso. apply Hin, list_elem_of_here.
  - f_equal. apply IH. intros Hk. apply Hin, list_elem_of_further, Hk.
Qed.

Lemma update_single d k v : PyDict.update d [(k, v)] = PyDict.set k v d.
Proof. reflexivity. Qed.

End DictFacts.

(** ** Strings and the output path *)

Lemma prefix_refl (s : string) : String.prefix s s = true.
Proof.
  induction s as [|c s IH]; simpl; [reflexivity|].
  destruct (Ascii.ascii_dec c c); [assumption|contradiction].
Qed.

Lemma contains_refl (s : string) : Str.contains s s = true.
Proof.
  destruct s as [|c s]; [reflexivity|].
  change (String.prefix (String c s) (String c s) || Str.contains (String c s) s = true).
  rewrite prefix_refl. reflexivity.
Qed.

Lemma contains_tail (sub : string) (c : ascii) (s : string) :
  Str.contains sub s = true -> Str.contains sub (String c s) = true.
Proof. intros Hc. simpl. rewrite Hc. apply orb_true_r. Qed.

Lemma endswith_contains (e s : string) (c : ascii) :
  Str.endswith s (String c e) = true -> Str.contains e s = true.
Proof.
  induction s as [|a s IH]; cbn [Str.endswith Str.contains].
  - rewrite orb_false_r. intros Heq. apply String.eqb_eq in Heq. discriminate.
  - intros Hend. apply orb_true_iff in Hend as [Heq|Hend].
    + apply String.eqb_eq in Heq. injection Heq as -> ->.
      rewrite contains_refl. apply orb_true_r.
    + rewrite (IH Hend). apply orb_true_r.
Qed.

(** A path that ends in a recognized extension is written as it is. *)
Lemma out_path_with_extension (p : string) :
  spec_has_recognized_extension p = true -> out_path p = p.
Proof.
  unfold spec_has_recognized_extension, out_path. intros Hext.
  assert (Hc : existsb (fun extension => Str.contains extension p) extensions = true).
  { apply existsb_exists in Hext as (e & Hin & Hend).
    apply existsb_exists. exists e. split; [assumption|].
    eapply endswith_contains. exact Hend. }
  rewrite Hc. reflexivity.
Qed.

(** A path in which none of the three suffixes occurs gets [.hdf5]. *)
Lemma out_path_without_occurrence (p : string) :
  existsb (fun extension => Str.contains extension p) extensions = false ->
  out_path p = (p ++ ".hdf5")%string.
Proof. unfold out_path. intros ->. reflexivity. Qed.

(** A [put] that succeeds stores the table under its key. *)
Lemma put_Ok key value store store' :
  put key value store = Ok store' ->
  store' = {| path := path store;
              nodes := PyDict.set key {| table := value; plot_metadata := None |}
                                  (nodes store) |}
  /\ key <> EmptyString /\ NoDup (pd.columns value).
Proof.
  unfold put. case_bool_decide as Hroot; [discriminate|].
  case_bool_decide as Hnd; [|discriminate].
  intros [= <-]. split; [reflexivity|]. split; [|exact Hnd].
  intros ->. apply Hroot, list_elem_of_here.
Qed.

Lemma put_not_DPE key value store :
  is_DataPreparationException (put key value store) = false.
Proof. unfold put. repeat case_bool_decide; reflexivity. Qed.

Lemma write_items_path h items store :
  path (snd (write_items h items store)) = path store.
Proof.
  revert store. induction items as [|[key item] items IH]; intros store; simpl.
  - reflexivity.
  - destruct (_group_by_index (Data item)) as [value|e]; simpl; [|reflexivity].
    destruct (put key value store) as [store1|e] eqn:Hput; simpl; [|reflexivity].
    apply put_Ok in Hput as (-> & _ & _).
    destruct (h !! Metadata item) as [md|]; simpl; [|reflexivity].
    destruct (_convert_enums md) as [metadata|e]; simpl; [|reflexivity].
    rewrite IH. unfold set_plot_metadata. simpl.
    destruct (PyDict.get key _); reflexivity.
Qed.

(** The file [save_to_file] opens is the one named by [out_path]. *)
Lemma save_to_file_path (p : string) (s : state) :
  path (snd (save_to_file p s)) = out_path p.
Proof. unfold save_to_file. rewrite write_items_path. reflexivity. Qed.

(** C3: [save_to_file] looks for the three suffixes anywhere in the path.
    The path [dir/path5/out] has no recognized extension, yet [h5] occurs
    in it, so nothing is appended and the file written has no extension. *)
Theorem save_to_file_extension_by_occurrence :
  spec_has_recognized_extension "dir/path5/out" = false /\
  Str.contains "h5" "dir/path5/out" = true /\
  out_path "dir/path5/out" = "dir/path5/out" /\
  forall s, path (snd (save_to_file "dir/path5/out" s)) = "dir/path5/out".
Proof.
  split; [reflexivity|]. split; [reflexivity|]. split; [reflexivity|].
  intros s. rewrite save_to_file_path. reflexivity.
Qed.

(** ** [column_metadata] *)

(** C1: [column_metadata] checks nothing and converts nothing.  An absent,
    empty or blank label comes back as the [Label] of a record, and the
    integer label [4] stays an integer. *)
Theorem column_metadata_keeps_any_label :
  (forall label unit, PyDict.get Label (column_metadata label unit) = Some label) /\
  Str.blank "" = true /\ Str.blank " " = true /\
  column_metadata_default PyNone = [(Label, PyNone); (Unit, PyNone)] /\
  column_metadata_default (PyStr "") = [(Label, PyStr ""); (Unit, PyNone)] /\
  column_metadata_default (PyStr " ") = [(Label, PyStr " "); (Unit, PyNone)] /\
  PyDict.get Label (column_metadata (PyInt 4) (PyStr "m/s")) = Some (PyInt 4).
Proof. repeat split. Qed.

(** C7: without a unit, the [Unit] of the record is [None], not the empty
    string; the [Label] is the label given. *)
Theorem column_metadata_default_unit_is_None :
  forall label,
    PyDict.get Label (column_metadata_default label) = Some label /\
    PyDict.get Unit (column_metadata_default label) = Some PyNone /\
    PyDict.get Unit (column_metadata_default label) <> Some (PyStr "").
Proof. intros label. repeat split. simpl. discriminate. Qed.

(** ** Running the operations *)

Ltac unfold_monad :=
  repeat progress
    unfold _assert_group_name_exists, get_dataset, set_data, update_metadata,
      set_dataset, deref, bind, gets, modify, raise, lift, ret.

(** [init_data_group] raises the domain exception for a name in use, and
    for nothing else. *)
Lemma init_data_group_raises_iff group key_metadata s :
  is_DataPreparationException (fst (init_data_group group key_metadata s)) = true
  <-> group ∈ PyDict.keys (datasets s).
Proof.
  rewrite <- mem_true. unfold init_data_group. unfold_monad. simpl.
  destruct (PyDict.mem group (datasets s)); simpl; [tauto|].
  destruct (heap s !! key_metadata) as [md|]; simpl; [|split; discriminate].
  destruct (pd.empty_indexed (PyDict.keys md)) as [df|e] eqn:He; simpl.
  - split; discriminate.
  - unfold pd.empty_indexed in He. destruct (PyDict.keys md); inversion He; subst.
    split; discriminate.
Qed.

(** With a fresh name and at least one key column the group is created:
    an empty table indexed by the key columns, and the caller's dict as
    its metadata. *)
Lemma init_data_group_creates group key_metadata s md :
  group ∉ PyDict.keys (datasets s) ->
  heap s !! key_metadata = Some md ->
  md <> [] ->
  init_data_group group key_metadata s =
    (Ok tt,
     {| heap := heap s;
        datasets :=
          PyDict.set group
            {| Data := {| pd.index_names := PyDict.keys md; pd.columns := []; pd.rows := [] |};
               Metadata := key_metadata |}
            (datasets s) |}).
Proof.
  intros Hfresh Hmd Hne. unfold init_data_group. unfold_monad. simpl.
  destruct (PyDict.mem group (datasets s)) eqn:Hmem.
  - apply mem_true in Hmem. contradiction.
  - rewrite Hmd. simpl. destruct md as [|kv md]; [contradiction|]. reflexivity.
Qed.

(** C2: the only check of [init_data_group] is the one for a name in use.
    A blank group name, a blank key-column name and a metadata record
    without a label are all accepted, and no key column at all ends in an
    exception of pandas, not in the domain exception. *)
Theorem init_data_group_checks_only_duplicates :
  (forall group key_metadata s,
      is_DataPreparationException (fst (init_data_group group key_metadata s)) = true
      <-> group ∈ PyDict.keys (datasets s)) /\
  Str.blank " " = true /\
  fst (init_data_group " " 0%nat (new_preparer [Example.key_metadata])) = Ok tt /\
  fst (init_data_group "MyGroup" 0%nat
         (new_preparer [[(PyStr "", Some (column_metadata_default (PyStr "A")))]])) = Ok tt /\
  fst (init_data_group "MyGroup" 0%nat
         (new_preparer [[(PyStr "Col", Some [(Unit, PyStr "MyUnit")])]])) = Ok tt /\
  is_DataPreparationException
    (fst (init_data_group "MyGroup" 0%nat (new_preparer [[]]))) = false.
Proof.
  split; [apply init_data_group_raises_iff|]. repeat split.
Qed.

Lemma get_None_mem {V} (k : string) (d : list (string * V)) :
  PyDict.get k d = None -> PyDict.mem k d = false.
Proof.
  intros Hg. destruct (PyDict.mem k d) eqn:Hm; [|reflexivity].
  apply mem_true, keys_get in Hm as [v Hv]. congruence.
Qed.

(** The run of [add_value_rows], step by step. *)
Lemma add_value_rows_run group rows md s :
  add_value_rows group rows md s =
  match PyDict.get group (datasets s) with
  | None =>
      (Raise (DataPreparationException ("Group name '" ++ group ++ "' already exists.")%string), s)
  | Some item =>
      match _assert_indexes_match (Data item) rows with
      | Raise e => (Raise e, s)
      | Ok _ =>
          match _ensure_is_series rows with
          | Raise e => (Raise e, s)
          | Ok (IsScalar _) => (Raise (OtherException "AttributeError"), s)
          | Ok (IsSeries r) =>
              let store data s1 :=
                (Ok tt,
                 {| heap := heap s1;
                    datasets := PyDict.set group {| Data := data; Metadata := Metadata item |}
                                           (datasets s1) |}) in
              if bool_decide (pd.name r ∈ pd.columns (Data item)) then
                match pd.concat_rows (Data item) (pd.to_frame r) with
                | Ok data => store data s
                | Raise e => (Raise e, s)
                end
              else if metadata_given md then
                match heap s !! Metadata item with
                | None => (Raise (OtherException "AttributeError"), s)
                | Some d =>
                    let s1 := {| heap := <[Metadata item := PyDict.set (pd.name r) md d]> (heap s);
                                 datasets := datasets s |} in
                    match pd.concat_rows (Data item) (pd.to_frame r) with
                    | Ok data => store data s1
                    | Raise e => (Raise e, s1)
                    end
                end
              else
                (Raise (DataPreparationException
                          ("No metadata specified for new column '" ++ py_str (pd.name r)
                           ++ "'.")%string), s)
          end
      end
  end.
Proof.
  unfold add_value_rows. unfold_monad. cbn.
  destruct (PyDict.get group (datasets s)) as [item|] eqn:Hitem.
  - rewrite (get_mem _ _ _ Hitem). cbn. rewrite Hitem. cbn.
    destruct (_assert_indexes_match (Data item) rows); cbn; [|reflexivity].
    destruct (_ensure_is_series rows) as [[r|v]|e]; cbn; try reflexivity.
    destruct (bool_decide (pd.name r ∈ pd.columns (Data item))); cbn.
    + destruct (pd.concat_rows (Data item) (pd.to_frame r)); cbn; [|reflexivity].
      rewrite Hitem. reflexivity.
    + destruct (metadata_given md); cbn; [|reflexivity].
      rewrite Hitem. cbn.
      destruct (heap s !! Metadata item); cbn; [|reflexivity].
      destruct (pd.concat_rows (Data item) (pd.to_frame r)); cbn; [|reflexivity].
      rewrite Hitem. reflexivity.
  - rewrite (get_None_mem _ _ Hitem). reflexivity.
Qed.

(** The run of [add_value_column], step by step. *)
Lemma add_value_column_run group column md s :
  add_value_column group column md s =
  match PyDict.get group (datasets s) with
  | None =>
      (Raise (DataPreparationException ("Group name '" ++ group ++ "' already exists.")%string), s)
  | Some item =>
      match _assert_indexes_match (Data item) column with
      | Raise e => (Raise e, s)
      | Ok _ =>
          match _ensure_is_series column with
          | Raise e => (Raise e, s)
          | Ok (IsScalar _) => (Raise (OtherException "TypeError"), s)
          | Ok (IsSeries c) =>
              match pd.concat_columns (Data item) c with
              | Raise e => (Raise e, s)
              | Ok data =>
                  let ds := PyDict.set group {| Data := data; Metadata := Metadata item |}
                                       (datasets s) in
                  match heap s !! Metadata item with
                  | None =>
                      (Raise (OtherException "AttributeError"),
                       {| heap := heap s; datasets := ds |})
                  | Some d =>
                      (Ok tt,
                       {| heap := <[Metadata item := PyDict.set (pd.name c) md d]> (heap s);
                          datasets := ds |})
                  end
              end
          end
      end
  end.
Proof.
  unfold add_value_column. unfold_monad. cbn.
  destruct (PyDict.get group (datasets s)) as [item|] eqn:Hitem.
  - rewrite (get_mem _ _ _ Hitem). cbn. rewrite Hitem. cbn.
    destruct (_assert_indexes_match (Data item) column); cbn; [|reflexivity].
    destruct (_ensure_is_series column) as [[c|v]|e]; cbn; try reflexivity.
    destruct (pd.concat_columns (Data item) c); cbn; [|reflexivity].
    rewrite Hitem. cbn. rewrite get_set_eq. cbn.
    destruct (heap s !! Metadata item); reflexivity.
  - rewrite (get_None_mem _ _ Hitem). reflexivity.
Qed.

(** The run of [init_data_group], step by step. *)
Lemma init_data_group_run group key_metadata s :
  init_data_group group key_metadata s =
  if PyDict.mem group (datasets s) then
    (Raise (DataPreparationException ("Group name '" ++ group ++ "' already exists.")%string), s)
  else
    match heap s !! key_metadata with
    | None => (Raise (OtherException "AttributeError"), s)
    | Some md =>
        match pd.empty_indexed (PyDict.keys md) with
        | Raise e => (Raise e, s)
        | Ok empty_df =>
            (Ok tt,
             {| heap := heap s;
                datasets := PyDict.set group {| Data := empty_df; Metadata := key_metadata |}
                                       (datasets s) |})
        end
    end.
Proof.
  unfold init_data_group. unfold_monad. cbn.
  destruct (PyDict.mem group (datasets s)); [reflexivity|].
  destruct (heap s !! key_metadata); cbn; [|reflexivity].
  destruct (pd.empty_indexed _); reflexivity.
Qed.

(** pandas never raises the domain exception. *)
Lemma empty_indexed_not_DPE ks : is_DataPreparationException (pd.empty_indexed ks) = false.
Proof. destruct ks; reflexivity. Qed.

Lemma concat_rows_not_DPE a b : is_DataPreparationException (pd.concat_rows a b) = false.
Proof.
  unfold pd.concat_rows. destruct (pd.is_empty _ _); [reflexivity|].
  destruct (bool_decide _); reflexivity.
Qed.

Lemma concat_columns_not_DPE a b : is_DataPreparationException (pd.concat_columns a b) = false.
Proof.
  unfold pd.concat_columns. destruct (pd.is_empty _ _); [reflexivity|].
  destruct (bool_decide _); [reflexivity|].
  destruct (_ && _); reflexivity.
Qed.

(** C8: an operation that raises [DataPreparationException] leaves the
    heap and every group as they were. *)
Theorem rejected_call_changes_nothing (op : operation) (s : state) :
  is_DataPreparationException (fst (run op s)) = true ->
  snd (run op s) = s.
Proof.
  destruct op as [group key_metadata|group column md|group rows md]; simpl.
  - rewrite init_data_group_run.
    destruct (PyDict.mem group (datasets s)); [reflexivity|].
    destruct (heap s !! key_metadata) as [d|]; [|reflexivity].
    pose proof (empty_indexed_not_DPE (PyDict.keys d)) as Hpd.
    destruct (pd.empty_indexed (PyDict.keys d)); simpl in *; [discriminate|reflexivity].
  - rewrite add_value_column_run.
    destruct (PyDict.get group (datasets s)) as [item|]; [|reflexivity].
    destruct (_assert_indexes_match (Data item) column); [|reflexivity].
    destruct (_ensure_is_series column) as [[c|v]|e]; try reflexivity.
    pose proof (concat_columns_not_DPE (Data item) c) as Hpd.
    destruct (pd.concat_columns (Data item) c); simpl in *; [|reflexivity].
    destruct (heap s !! Metadata item); simpl; discriminate.
  - rewrite add_value_rows_run.
    destruct (PyDict.get group (datasets s)) as [item|]; [|reflexivity].
    destruct (_assert_indexes_match (Data item) rows); [|reflexivity].
    destruct (_ensure_is_series rows) as [[r|v]|e]; try reflexivity.
    pose proof (concat_rows_not_DPE (Data item) (pd.to_frame r)) as Hpd.
    destruct (bool_decide (pd.name r ∈ pd.columns (Data item))).
    + destruct (pd.concat_rows _ _); simpl in *; [discriminate|reflexivity].
    + destruct (metadata_given md); [|reflexivity].
      destruct (heap s !! Metadata item); [|reflexivity].
      destruct (pd.concat_rows _ _) as [data|[msg|cls]]; simpl in *; discriminate.
Qed.

(** ** Matching the index of a group *)

Lemma find_missing_Ok (group_index column_index : list pyval) :
  find_missing group_index column_index = Ok tt <->
  (forall x, x ∈ group_index -> x ∈ column_index).
Proof.
  induction group_index as [|g group_index IH]; simpl.
  - split; [intros _ x Hx; inversion Hx|reflexivity].
  - destruct (bool_decide (g ∈ column_index)) eqn:Hg; simpl.
    + apply bool_decide_eq_true in Hg. rewrite IH. split.
      * intros Hall x Hx. inversion Hx; subst; auto.
      * intros Hall x Hx. apply Hall, list_elem_of_further, Hx.
    + apply bool_decide_eq_false in Hg. split; [discriminate|].
      intros Hall. exfalso. apply Hg, Hall, list_elem_of_here.
Qed.

Lemma find_missing_DPE (group_index column_index : list pyval) :
  find_missing group_index column_index = Ok tt \/
  is_DataPreparationException (find_missing group_index column_index) = true.
Proof.
  induction group_index as [|g group_index IH]; simpl; [left; reflexivity|].
  destruct (bool_decide (g ∈ column_index)); simpl; [exact IH|right; reflexivity].
Qed.

(** [_assert_indexes_match] passes exactly when both indexes have the same
    number of levels and every level name of the group is one of the
    argument's. *)
Lemma assert_indexes_match_Ok container column :
  _assert_indexes_match container column = Ok tt <->
  length (pd.index_names container) = length (arg_index_names column) /\
  (forall x, x ∈ pd.index_names container -> x ∈ arg_index_names column).
Proof.
  unfold _assert_indexes_match.
  destruct (length (pd.index_names container) =? length (arg_index_names column))%nat eqn:Hlen;
    simpl.
  - apply Nat.eqb_eq in Hlen. rewrite find_missing_Ok. tauto.
  - apply Nat.eqb_neq in Hlen. split; [discriminate|tauto].
Qed.

Lemma assert_indexes_match_DPE container column :
  _assert_indexes_match container column = Ok tt \/
  is_DataPreparationException (_assert_indexes_match container column) = true.
Proof.
  unfold _assert_indexes_match.
  destruct (negb _); [right; reflexivity|apply find_missing_DPE].
Qed.

(** With distinct level names in the group, passing the check means that
    both indexes carry the same names. *)
Lemma assert_indexes_match_same_names container column :
  NoDup (pd.index_names container) ->
  _assert_indexes_match container column = Ok tt ->
  pd.index_names container ≡ₚ arg_index_names column.
Proof.
  intros Hnd Hok. apply assert_indexes_match_Ok in Hok as [Hlen Hsub].
  apply submseteq_length_Permutation.
  - apply NoDup_submseteq; assumption.
  - rewrite Hlen. reflexivity.
Qed.


(** ** Metadata of value rows and value columns *)

Lemma column_label_named (n : pyval) : n <> PyNone -> pd.column_label n = n.
Proof. destruct n; [contradiction|reflexivity|reflexivity]. Qed.

Lemma is_empty_true (rs : list (pd.key * list pd.cell)) (cols : list pyval) :
  pd.is_empty rs cols = true <-> rs = [] /\ cols = [].
Proof.
  destruct rs, cols; simpl; split; try discriminate; try tauto; intros [? ?]; discriminate.
Qed.

(** An empty table is left out. *)
Lemma concat_rows_empty container other :
  pd.is_empty (pd.rows container) (pd.columns container) = true ->
  pd.concat_rows container other = Ok other.
Proof. unfold pd.concat_rows. intros ->. reflexivity. Qed.

(** With distinct column labels, [concat] along the rows is defined. *)
Lemma concat_rows_defined container other :
  NoDup (pd.columns container) ->
  exists data, pd.concat_rows container other = Ok data.
Proof.
  intros Hnd. unfold pd.concat_rows. destruct (pd.is_empty _ _); [eauto|].
  rewrite (bool_decide_eq_true_2 _ Hnd). eauto.
Qed.

(** With duplicate column labels it is not. *)
Lemma concat_rows_duplicates container other :
  ~ NoDup (pd.columns container) ->
  pd.concat_rows container other = Raise (OtherException "InvalidIndexError").
Proof.
  intros Hdup. unfold pd.concat_rows.
  destruct (pd.is_empty _ _) eqn:He.
  - apply is_empty_true in He as [_ Hc]. exfalso. apply Hdup. rewrite Hc. constructor.
  - rewrite (bool_decide_eq_false_2 _ Hdup). reflexivity.
Qed.

Lemma concat_rows_below container other :
  pd.is_empty (pd.rows container) (pd.columns container) = false ->
  NoDup (pd.columns container) ->
  exists data, pd.concat_rows container other = Ok data /\
    pd.rows data =
      pd.as_stored
        (map (fun r => (fst r,
                        if bool_decide (hd PyNone (pd.columns other) ∈ pd.columns container)
                        then snd r else snd r ++ [None]))
             (pd.rows container)
         ++ map (fun r => (fst r,
                           map (fun c' => if decide (c' = hd PyNone (pd.columns other))
                                          then hd None (snd r) else None)
                               (pd.columns data)))
                (pd.rows other)) /\
    pd.columns data =
      (if bool_decide (hd PyNone (pd.columns other) ∈ pd.columns container)
       then pd.columns container
       else pd.columns container ++ [hd PyNone (pd.columns other)]) /\
    pd.index_names data = pd.unanimous_names (pd.index_names container) (pd.index_names other).
Proof.
  intros He Hnd. unfold pd.concat_rows. rewrite He, (bool_decide_eq_true_2 _ Hnd).
  eexists. split; [reflexivity|]. simpl. auto.
Qed.

Lemma heap_insert_lookup (h : list metadata_dict) (r : ref) (d d' : metadata_dict) :
  h !! r = Some d -> <[r := d']> h !! r = Some d'.
Proof. intros Hd. apply list_lookup_insert_eq. eapply lookup_lt_Some, Hd. Qed.

(** C6, as the code has it: for rows that pass the checks, a column name
    the table does not have needs metadata: without them (absent or empty)
    the call raises [DataPreparationException] and changes nothing; with
    them the group's metadata dict maps the name to them.  For a column
    name the table has, the metadata that come with the rows are not
    looked at and no metadata dict changes.  In both of the latter cases
    no [DataPreparationException] is raised; the call succeeds when the
    column labels of the table are distinct, and raises pandas'
    [InvalidIndexError] when they are not. *)
Theorem add_value_rows_metadata_rule group rows r (md : option metadata) s item d :
  PyDict.get group (datasets s) = Some item ->
  heap s !! Metadata item = Some d ->
  _assert_indexes_match (Data item) rows = Ok tt ->
  _ensure_is_series rows = Ok (IsSeries r) ->
  let res := add_value_rows group rows md s in
  (pd.name r ∉ pd.columns (Data item) ->
     (metadata_given md = false ->
        is_DataPreparationException (fst res) = true /\ snd res = s) /\
     (metadata_given md = true ->
        is_DataPreparationException (fst res) = false /\
        (NoDup (pd.columns (Data item)) -> fst res = Ok tt) /\
        (~ NoDup (pd.columns (Data item)) ->
           fst res = Raise (OtherException "InvalidIndexError")) /\
        exists d', heap (snd res) !! Metadata item = Some d' /\
                   PyDict.get (pd.name r) d' = Some md /\
                   (forall k, k <> pd.name r -> PyDict.get k d' = PyDict.get k d))) /\
  (pd.name r ∈ pd.columns (Data item) ->
     is_DataPreparationException (fst res) = false /\
     (NoDup (pd.columns (Data item)) -> fst res = Ok tt) /\
     (~ NoDup (pd.columns (Data item)) ->
        fst res = Raise (OtherException "InvalidIndexError") /\ snd res = s) /\
     heap (snd res) = heap s) /\
  (fst res = Ok tt ->
     exists data, pd.concat_rows (Data item) (pd.to_frame r) = Ok data /\
       PyDict.get group (datasets (snd res)) =
         Some {| Data := data; Metadata := Metadata item |}).
Proof.
  intros Hitem Hd Hmatch Hens res. subst res.
  rewrite add_value_rows_run, Hitem, Hmatch, Hens. cbn zeta. rewrite Hd.
  assert (Hreg : exists d', <[Metadata item := PyDict.set (pd.name r) md d]> (heap s)
                              !! Metadata item = Some d' /\
                            PyDict.get (pd.name r) d' = Some md /\
                            (forall k, k <> pd.name r -> PyDict.get k d' = PyDict.get k d)).
  { exists (PyDict.set (pd.name r) md d). split; [|split].
    - eapply heap_insert_lookup, Hd.
    - apply get_set_eq.
    - intros k Hk. apply get_set_ne. congruence. }
  destruct (decide (NoDup (pd.columns (Data item)))) as [Hnd|Hdup].
  - destruct (concat_rows_defined (Data item) (pd.to_frame r) Hnd) as [data Hdata].
    rewrite Hdata. split; [|split].
    + intros Hnew. rewrite (bool_decide_eq_false_2 _ Hnew). split.
      * intros ->. split; reflexivity.
      * intros ->. cbn. split; [reflexivity|]. split; [reflexivity|].
        split; [intros Hdup; contradiction|exact Hreg].
    + intros Hold. rewrite (bool_decide_eq_true_2 _ Hold). cbn.
      split; [reflexivity|]. split; [reflexivity|]. split; [intros Hdup; contradiction|reflexivity].
    + destruct (bool_decide (pd.name r ∈ pd.columns (Data item))).
      * intros _. exists data. split; [reflexivity|]. cbn. apply get_set_eq.
      * destruct (metadata_given md); [|discriminate].
        intros _. exists data. split; [reflexivity|]. cbn. apply get_set_eq.
  - rewrite (concat_rows_duplicates _ _ Hdup). split; [|split].
    + intros Hnew. rewrite (bool_decide_eq_false_2 _ Hnew). split.
      * intros ->. split; reflexivity.
      * intros ->. cbn. split; [reflexivity|]. split; [intros Hnd; contradiction|].
        split; [reflexivity|exact Hreg].
    + intros Hold. rewrite (bool_decide_eq_true_2 _ Hold). cbn.
      split; [reflexivity|]. split; [intros Hnd; contradiction|]. split; [|reflexivity].
      intros _. split; reflexivity.
    + destruct (bool_decide (pd.name r ∈ pd.columns (Data item))); [discriminate|].
      destruct (metadata_given md); discriminate.
Qed.

(** ** Numbers *)

Lemma round_f64_exact (z : Z) : Z.abs z <= 2 ^ 53 -> pd.round_f64 z = z.
Proof.
  unfold pd.round_f64. intros Hz. apply Z.leb_le in Hz. rewrite Hz. reflexivity.
Qed.

(** A number with a mantissa of 53 bits is a [float64]. *)
Lemma round_f64_mantissa (s m e : Z) :
  s = 1 \/ s = -1 -> 0 <= e -> 2 ^ 52 <= m < 2 ^ 53 ->
  pd.round_f64 (s * (m * 2 ^ e)) = s * (m * 2 ^ e).
Proof.
  intros Hs He Hm.
  assert (Hp : 0 < 2 ^ e) by (apply Z.pow_pos_nonneg; lia).
  assert (Hy : 0 < m * 2 ^ e) by nia.
  assert (Habs : Z.abs (s * (m * 2 ^ e)) = m * 2 ^ e) by (destruct Hs as [-> | ->]; lia).
  assert (Hsgn : Z.sgn (s * (m * 2 ^ e)) = s) by (destruct Hs as [-> | ->]; lia).
  unfold pd.round_f64. rewrite Habs, Hsgn.
  destruct (m * 2 ^ e <=? 2 ^ 53) eqn:Hle; [reflexivity|].
  apply Z.leb_gt in Hle.
  assert (He1 : 1 <= e).
  { destruct (Z.eq_dec e 0) as [->|]; [|lia]. simpl in Hle. lia. }
  assert (Hlog : Z.log2 (m * 2 ^ e) = e + 52).
  { rewrite Z.log2_mul_pow2 by lia. f_equal. apply Z.log2_unique; lia. }
  rewrite Hlog. replace (e + 52 - 52) with e by lia.
  rewrite Z.div_mul by lia. rewrite Z.mod_mul by lia.
  assert (Hh : 0 < 2 ^ (e - 1)) by (apply Z.pow_pos_nonneg; lia).
  rewrite (proj2 (Z.ltb_ge _ _)) by lia.
  rewrite (proj2 (Z.eqb_neq _ _)) by lia.
  reflexivity.
Qed.

(** Rounding a [float64] changes nothing. *)
Lemma round_f64_idempotent (z : Z) : pd.round_f64 (pd.round_f64 z) = pd.round_f64 z.
Proof.
  destruct (Z_le_gt_dec (Z.abs z) (2 ^ 53)) as [Hle|Hgt].
  - rewrite (round_f64_exact z Hle). apply round_f64_exact, Hle.
  - assert (Hlog : 53 <= Z.log2 (Z.abs z)).
    { change 53 with (Z.log2 (2 ^ 53)). apply Z.log2_le_mono. lia. }
    destruct (Z.log2_spec (Z.abs z) ltac:(lia)) as [Hlo Hhi].
    unfold pd.round_f64 at 2 3. rewrite (proj2 (Z.leb_gt _ _)) by lia. cbv zeta.
    set (a := Z.abs z) in *. set (e := Z.log2 a - 52).
    assert (He : 1 <= e) by (unfold e; lia).
    assert (Hp : 0 < 2 ^ e) by (apply Z.pow_pos_nonneg; lia).
    replace (Z.log2 a) with (52 + e) in Hlo by (unfold e; lia).
    replace (Z.succ (Z.log2 a)) with (53 + e) in Hhi by (unfold e; lia).
    rewrite Z.pow_add_r in Hlo, Hhi by lia.
    assert (Hq1 : 2 ^ 52 <= a / 2 ^ e) by (apply Z.div_le_lower_bound; lia).
    assert (Hq2 : a / 2 ^ e < 2 ^ 53) by (apply Z.div_lt_upper_bound; lia).
    assert (Hs : Z.sgn z = 1 \/ Z.sgn z = -1) by lia.
    match goal with
    | |- context [if ?b then _ else _] => destruct b
    end.
    + destruct (Z.eq_dec (a / 2 ^ e + 1) (2 ^ 53)) as [Heq|Hne].
      * rewrite Heq. replace (2 ^ 53 * 2 ^ e) with (2 ^ 52 * 2 ^ (e + 1))
          by (rewrite Z.pow_add_r by lia; lia).
        apply round_f64_mantissa; [exact Hs|lia|lia].
      * apply round_f64_mantissa; [exact Hs|lia|lia].
    + apply round_f64_mantissa; [exact Hs|lia|lia].
Qed.

Lemma wrap64_exact (z : Z) : - 2 ^ 63 <= z < 2 ^ 63 -> pd.wrap64 z = z.
Proof. unfold pd.wrap64. intros Hz. rewrite Z.mod_small by lia. lia. Qed.

Lemma wrap64_in_int64 (z : Z) : pd.in_int64 (pd.wrap64 z) = true.
Proof.
  unfold pd.wrap64, pd.in_int64.
  pose proof (Z.mod_pos_bound (z + 2 ^ 63) (2 ^ 64) ltac:(lia)) as Hb.
  apply andb_true_iff. split; [apply Z.leb_le|apply Z.ltb_lt]; lia.
Qed.




(** ** Columns next to columns *)










(** ** Grouping by the index *)

Lemma key_compare_eq (a b : pd.key) : pd.key_compare a b = Eq <-> a = b.
Proof.
  revert b. induction a as [|x a IH]; intros [|y b]; simpl; try (split; [discriminate|congruence]).
  - tauto.
  - destruct (Z.compare_spec x y) as [->|Hlt|Hgt].
    + rewrite IH. split; congruence.
    + split; [discriminate|]. intros [= -> _]. lia.
    + split; [discriminate|]. intros [= -> _]. lia.
Qed.

Lemma key_compare_antisym (a b : pd.key) : pd.key_compare b a = CompOpp (pd.key_compare a b).
Proof.
  revert b. induction a as [|x a IH]; intros [|y b]; simpl; try reflexivity.
  rewrite (Z.compare_antisym x y).
  destruct (x ?= y); simpl; auto.
Qed.

Lemma key_lt_trans (a b c : pd.key) : key_lt a b -> key_lt b c -> key_lt a c.
Proof.
  unfold key_lt. revert b c.
  induction a as [|x a IH]; intros [|y b] [|z c]; simpl; try congruence.
  destruct (Z.compare_spec x y) as [->|Hxy|Hxy]; try discriminate.
  - destruct (Z.compare_spec y z) as [->|Hyz|Hyz]; try discriminate; [apply IH|reflexivity].
  - intros _. destruct (Z.compare_spec y z) as [->|Hyz|Hyz]; try discriminate.
    + intros _. rewrite (proj2 (Z.compare_lt_iff x z)) by lia. reflexivity.
    + intros _. rewrite (proj2 (Z.compare_lt_iff x z)) by lia. reflexivity.
Qed.

Lemma key_lt_irrefl (a : pd.key) : ~ key_lt a a.
Proof. unfold key_lt. rewrite (proj2 (key_compare_eq a a) eq_refl). discriminate. Qed.

Lemma elem_of_insert_key (x k : pd.key) (l : list pd.key) :
  x ∈ pd.insert_key k l <-> x = k \/ x ∈ l.
Proof.
  induction l as [|y l IH]; simpl.
  - rewrite list_elem_of_singleton. split; [auto|]. intros [|H]; [assumption|inversion H].
  - destruct (pd.key_compare k y) eqn:Hc.
    + apply key_compare_eq in Hc as ->. split; [auto|]. intros [->|]; [apply list_elem_of_here|assumption].
    + rewrite elem_of_cons. reflexivity.
    + rewrite !elem_of_cons, IH. tauto.
Qed.

Lemma insert_key_sorted (k : pd.key) (l : list pd.key) :
  StronglySorted key_lt l -> StronglySorted key_lt (pd.insert_key k l).
Proof.
  induction l as [|y l IH]; simpl; intros Hs.
  - constructor; constructor.
  - apply StronglySorted_inv in Hs as [Hs Hall].
    destruct (pd.key_compare k y) eqn:Hc.
    + constructor; assumption.
    + constructor; [constructor; assumption|].
      constructor; [exact Hc|].
      eapply Forall_impl; [exact Hall|]. intros z Hz. eapply key_lt_trans; eassumption.
    + constructor; [apply IH, Hs|].
      apply Forall_forall. intros z Hz. apply elem_of_insert_key in Hz as [->|Hz].
      * unfold key_lt. rewrite (key_compare_antisym k y), Hc. reflexivity.
      * rewrite Forall_forall in Hall. apply Hall, Hz.
Qed.

Lemma group_keys_sorted (ks : list pd.key) : StronglySorted key_lt (pd.group_keys ks).
Proof.
  induction ks as [|k ks IH]; simpl; [constructor|]. apply insert_key_sorted, IH.
Qed.

Lemma sorted_NoDup (l : list pd.key) : StronglySorted key_lt l -> NoDup l.
Proof.
  induction 1 as [|x l Hs IH Hall]; constructor; [|assumption].
  intros Hin. rewrite Forall_forall in Hall. eapply key_lt_irrefl, Hall, Hin.
Qed.

(** Every index entry of the table heads exactly one group. *)
Lemma group_keys_NoDup (ks : list pd.key) : NoDup (pd.group_keys ks).
Proof. apply sorted_NoDup, group_keys_sorted. Qed.

Lemma elem_of_group_keys (k : pd.key) (ks : list pd.key) : k ∈ pd.group_keys ks <-> k ∈ ks.
Proof.
  induction ks as [|k0 ks IH]; simpl; [reflexivity|].
  rewrite elem_of_insert_key, elem_of_cons, IH. reflexivity.
Qed.

(** ** Sums over groups of rows *)


Lemma group_app (k : pd.key) (a b : list (pd.key * list pd.cell)) :
  pd.group k (a ++ b) = pd.group k a ++ pd.group k b.
Proof. unfold pd.group. apply filter_app. Qed.

Lemma total_app (a b : list Z) : total (a ++ b) = total a + total b.
Proof. unfold total. induction a as [|x a IH]; simpl; [reflexivity|]. rewrite IH. lia. Qed.

Lemma magnitude_app (a b : list Z) : magnitude (a ++ b) = magnitude a + magnitude b.
Proof.
  unfold magnitude. induction a as [|x a IH]; simpl; [reflexivity|]. rewrite IH. lia.
Qed.



















(** ** What [save_to_file] stores *)

Lemma group_by_index_defined (data : pd.DataFrame) :
  PyNone ∉ pd.index_names data ->
  (forall n, n ∈ pd.index_names data -> n ∉ pd.columns data) ->
  _group_by_index data =
    Ok {| pd.index_names := pd.index_names data;
          pd.columns := pd.columns data;
          pd.rows :=
            map (fun k => (k, map (fun j => Some (pd.group_sum j (pd.rows data) k))
                                  (seq 0 (length (pd.columns data)))))
                (pd.group_keys (pd.keys (pd.rows data))) |}.
Proof.
  intros Hnone Hamb. unfold _group_by_index, pd.groupby_index_sum.
  rewrite (bool_decide_eq_false_2 _ Hnone).
  destruct (existsb _ _) eqn:Hex; [|reflexivity].
  apply existsb_exists in Hex as (n & Hn & Hc). apply bool_decide_eq_true in Hc.
  exfalso. eapply Hamb; [apply list_elem_of_In, Hn|exact Hc].
Qed.



(** ** Rows accumulate, and are summed when the file is written *)

Lemma unanimous_names_same (l : list pyval) : pd.unanimous_names l l = l.
Proof.
  unfold pd.unanimous_names. rewrite decide_True by reflexivity.
  induction l as [|x l IH]; simpl; [reflexivity|].
  rewrite decide_True by reflexivity. rewrite IH. reflexivity.
Qed.

Lemma keys_map_row {A B} (g : pd.key * A -> pd.key * B) (rs : list (pd.key * A)) :
  (forall r, fst (g r) = fst r) -> pd.keys (map g rs) = pd.keys rs.
Proof.
  intros Hg. unfold pd.keys. rewrite map_map. apply map_ext. exact Hg.
Qed.

Lemma keys_map_keys {A} (f : pd.key -> A) (ks : list pd.key) :
  pd.keys (map (fun k => (k, f k)) ks) = ks.
Proof. unfold pd.keys. rewrite map_map. simpl. apply map_id. Qed.


Lemma keys_to_frame (r : pd.Series) : pd.keys (pd.rows (pd.to_frame r)) = pd.keys (pd.values r).
Proof. unfold pd.to_frame. simpl. apply keys_map_row. reflexivity. Qed.

Lemma lookup_map_seq {A} (f : nat -> A) (n j : nat) :
  (j < n)%nat -> map f (seq 0 n) !! j = Some (f j).
Proof.
  intros Hj. change (map f (seq 0 n)) with (f <$> seq 0 n).
  rewrite list_lookup_fmap, lookup_seq_lt by exact Hj. reflexivity.
Qed.

(** One call of [add_value_rows] with a named series whose index is that of
    the group: the rows of the series go below the rows of the table, and
    make the table where it was empty. *)
Lemma add_value_rows_appends group r (md : option metadata) s item d :
  PyDict.get group (datasets s) = Some item ->
  heap s !! Metadata item = Some d ->
  pd.index_names_s r = pd.index_names (Data item) ->
  NoDup (pd.columns (Data item)) ->
  pd.name r <> PyNone ->
  (pd.name r ∈ pd.columns (Data item) \/ metadata_given md = true) ->
  exists s' data d',
    add_value_rows group (ASeries r) md s = (Ok tt, s') /\
    PyDict.get group (datasets s') = Some {| Data := data; Metadata := Metadata item |} /\
    PyDict.keys (datasets s') = PyDict.keys (datasets s) /\
    heap s' !! Metadata item = Some d' /\
    pd.index_names data = pd.index_names (Data item) /\
    pd.columns data =
      (if bool_decide (pd.name r ∈ pd.columns (Data item))
       then pd.columns (Data item) else pd.columns (Data item) ++ [pd.name r]) /\
    pd.rows data =
      (if pd.is_empty (pd.rows (Data item)) (pd.columns (Data item))
       then pd.rows (pd.to_frame r)
       else
         pd.as_stored
           (map (fun row => (fst row,
                             if bool_decide (pd.name r ∈ pd.columns (Data item))
                             then snd row else snd row ++ [None]))
                (pd.rows (Data item))
            ++ map (fun row => (fst row,
                                map (fun c' => if decide (c' = pd.name r)
                                               then hd None (snd row) else None)
                                    (pd.columns data)))
                   (pd.rows (pd.to_frame r)))).
Proof.
  intros Hitem Hd Hnames Hnd Hname Hmd.
  assert (Hmatch : _assert_indexes_match (Data item) (ASeries r) = Ok tt).
  { apply assert_indexes_match_Ok. simpl. rewrite Hnames. auto. }
  assert (Hconcat : exists data,
            pd.concat_rows (Data item) (pd.to_frame r) = Ok data /\
            pd.index_names data = pd.index_names (Data item) /\
            pd.columns data =
              (if bool_decide (pd.name r ∈ pd.columns (Data item))
               then pd.columns (Data item) else pd.columns (Data item) ++ [pd.name r]) /\
            pd.rows data =
              (if pd.is_empty (pd.rows (Data item)) (pd.columns (Data item))
               then pd.rows (pd.to_frame r)
               else
                 pd.as_stored
                   (map (fun row => (fst row,
                                     if bool_decide (pd.name r ∈ pd.columns (Data item))
                                     then snd row else snd row ++ [None]))
                        (pd.rows (Data item))
                    ++ map (fun row => (fst row,
                                        map (fun c' => if decide (c' = pd.name r)
                                                       then hd None (snd row) else None)
                                            (pd.columns data)))
                           (pd.rows (pd.to_frame r))))).
  { destruct (pd.is_empty (pd.rows (Data item)) (pd.columns (Data item))) eqn:He.
    - exists (pd.to_frame r). split; [apply concat_rows_empty, He|].
      apply is_empty_true in He as [_ Hc]. rewrite Hc.
      rewrite (bool_decide_eq_false_2 _ (not_elem_of_nil (pd.name r))).
      cbn [pd.to_frame pd.index_names pd.columns app].
      rewrite (column_label_named _ Hname). auto.
    - destruct (concat_rows_below (Data item) (pd.to_frame r) He Hnd)
        as (data & Hdata & Hrows & Hcols & Hidx).
      cbn [pd.to_frame pd.columns pd.index_names hd] in Hrows, Hcols, Hidx.
      rewrite (column_label_named _ Hname) in Hrows, Hcols.
      rewrite Hnames, unanimous_names_same in Hidx.
      exists data. auto. }
  destruct Hconcat as (data & Hdata & Hidx & Hcols & Hrows).
  assert (Hkeys : PyDict.keys (PyDict.set group {| Data := data; Metadata := Metadata item |}
                                          (datasets s)) = PyDict.keys (datasets s)).
  { apply keys_set_known. eapply get_Some_keys, Hitem. }
  assert (Hrun : add_value_rows group (ASeries r) md s =
            (Ok tt,
             {| heap := if bool_decide (pd.name r ∈ pd.columns (Data item)) then heap s
                        else <[Metadata item := PyDict.set (pd.name r) md d]> (heap s);
                datasets := PyDict.set group {| Data := data; Metadata := Metadata item |}
                                       (datasets s) |})).
  { rewrite add_value_rows_run, Hitem, Hmatch. cbn [_ensure_is_series]. cbn zeta.
    rewrite Hdata, Hd.
    destruct (bool_decide (pd.name r ∈ pd.columns (Data item))) eqn:Hknown; [reflexivity|].
    destruct Hmd as [Hin|Hmd]; [apply bool_decide_eq_false in Hknown; contradiction|].
    rewrite Hmd. reflexivity. }
  eexists _, data, (if bool_decide (pd.name r ∈ pd.columns (Data item)) then d
                    else PyDict.set (pd.name r) md d).
  split; [exact Hrun|]. cbn [datasets heap].
  split; [apply get_set_eq|]. split; [exact Hkeys|].
  split; [|auto].
  destruct (bool_decide (pd.name r ∈ pd.columns (Data item))); [exact Hd|].
  eapply heap_insert_lookup, Hd.
Qed.




(** ** The metadata block *)





(** ** The properties on the runs of the tests *)

(** The preparer keeps the dict it is given: two groups created from one
    dict share their metadata, and a column registered for one of them is
    registered for the other. *)
Lemma shared_metadata_dict :
  let s := snd ((init_data_group "A" 0%nat ;;
                 init_data_group "B" 0%nat ;;
                 add_value_rows "A" (ASeries (Example.series 0 0)) Example.some_label)
                  (new_preparer [Example.key_metadata])) in
  Metadata <$> PyDict.get "B" (datasets s) = Some 0%nat /\
  (PyDict.get (PyStr "MyValueColumn") <$> heap s !! 0%nat) = Some (Some Example.some_label) /\
  pd.columns <$> (Data <$> PyDict.get "B" (datasets s)) = Some [].
Proof. vm_compute. repeat split. Qed.

Ltac by_computation :=
  match goal with
  | |- ~ ?P => apply (bool_decide_eq_false_1 P); vm_compute; reflexivity
  | |- ?P => apply (bool_decide_eq_true_1 P); vm_compute; reflexivity
  end.

(** New rows without metadata for a new column are rejected, and the
    preparer is as before. *)
Lemma rejected_call_witness :
  snd (run (AddValueRows "Group" (ASeries (Example.series 0 0)) (Some [])) Example.initial)
  = Example.initial.
Proof.
  apply (rejected_call_changes_nothing
           (AddValueRows "Group" (ASeries (Example.series 0 0)) (Some [])) Example.initial).
  vm_compute. reflexivity.
Defined.



(** Rows for the column [MyValueColumn], once it exists, are accepted with
    empty metadata, and the metadata stay as they are. *)
Lemma add_value_rows_metadata_witness :
  fst (add_value_rows "Group" (ASeries (Example.series 1 1)) (Some []) (Example.one_call 0 0))
  = Ok tt /\
  heap (snd (add_value_rows "Group" (ASeries (Example.series 1 1)) (Some [])
                            (Example.one_call 0 0)))
  = heap (Example.one_call 0 0).
Proof.
  destruct (proj1 (proj2
              (add_value_rows_metadata_rule "Group" (ASeries (Example.series 1 1))
                 (Example.series 1 1) (Some []) (Example.one_call 0 0)
                 (Example.one_call_item 0 0)
                 [(PyStr "ColA", Some (column_metadata_default (PyStr "A")));
                  (PyStr "MyValueColumn", Example.some_label)]
                 ltac:(vm_compute; reflexivity) ltac:(vm_compute; reflexivity)
                 ltac:(vm_compute; reflexivity) ltac:(vm_compute; reflexivity)))
              ltac:(by_computation))
    as (_ & Hok & _ & Hheap).
  split; [apply Hok; by_computation|exact Hheap].
Defined.

(** C6, as stated, fails on a table with two columns of one name, as two
    calls of [add_value_column] leave it: rows for that name pass the
    checks and make pandas raise [InvalidIndexError]. *)
Lemma rows_for_a_doubled_column_fail :
  exists item,
    PyDict.get "Group" (datasets Example.doubled_column) = Some item /\
    pd.columns (Data item) = [PyStr "MyValueColumn"; PyStr "MyValueColumn"] /\
    _assert_indexes_match (Data item) (ASeries (Example.series 1 3)) = Ok tt /\
    fst (add_value_rows "Group" (ASeries (Example.series 1 3)) Example.some_label
           Example.doubled_column)
    = Raise (OtherException "InvalidIndexError").
Proof.
  eexists. split; [vm_compute; reflexivity|].
  split; [reflexivity|]. split; vm_compute; reflexivity.
Qed.






(** * Further properties of the code *)

(** ** Groups that do not exist, frames, and the index check *)

Lemma not_keys_get_None {V} (k : string) (d : list (string * V)) :
  k ∉ PyDict.keys d -> PyDict.get k d = None.
Proof.
  intros Hk. destruct (PyDict.get k d) as [v|] eqn:Hg; [|reflexivity].
  exfalso. eapply Hk, get_Some_keys, Hg.
Qed.

(** X1: a column or rows for a group that was never initialised are
    rejected with [DataPreparationException], whatever the data are, and
    nothing changes; the message is the one of a name in use. *)
Theorem unknown_group_is_rejected group (arg : data_arg) (md : option metadata) s :
  group ∉ PyDict.keys (datasets s) ->
  add_value_column group arg md s =
    (Raise (DataPreparationException ("Group name '" ++ group ++ "' already exists.")%string), s) /\
  add_value_rows group arg md s =
    (Raise (DataPreparationException ("Group name '" ++ group ++ "' already exists.")%string), s).
Proof.
  intros Hk. apply not_keys_get_None in Hk.
  rewrite add_value_column_run, add_value_rows_run, Hk. split; reflexivity.
Qed.

Lemma unknown_group_witness :
  is_DataPreparationException
    (fst (add_value_rows "MissingGroup" (ASeries (Example.series 0 0)) (Some [])
            (new_preparer []))) = true.
Proof.
  rewrite (proj2 (unknown_group_is_rejected "MissingGroup" (ASeries (Example.series 0 0))
                    (Some []) (new_preparer []) ltac:(by_computation))).
  reflexivity.
Defined.

(** X2: a frame with more than one column is rejected with
    [DataPreparationException] by both operations and nothing changes;
    when its index matches the group's, the message is the one of
    [_ensure_is_series]. *)
Theorem several_columns_are_rejected group first second others (md : option metadata) s item :
  PyDict.get group (datasets s) = Some item ->
  let arg := AFrame first (second :: others) in
  (is_DataPreparationException (fst (add_value_column group arg md s)) = true /\
   snd (add_value_column group arg md s) = s) /\
  (is_DataPreparationException (fst (add_value_rows group arg md s)) = true /\
   snd (add_value_rows group arg md s) = s) /\
  (_assert_indexes_match (Data item) arg = Ok tt ->
   fst (add_value_column group arg md s) =
     Raise (DataPreparationException "Given data must be a Series of single-column DataFrame!") /\
   fst (add_value_rows group arg md s) =
     Raise (DataPreparationException "Given data must be a Series of single-column DataFrame!")).
Proof.
  intros Hitem arg. rewrite add_value_column_run, add_value_rows_run, Hitem.
  destruct (assert_indexes_match_DPE (Data item) arg) as [Hok|Hr].
  - rewrite Hok. cbn. repeat split; reflexivity.
  - destruct (_assert_indexes_match (Data item) arg) as [u|e]; [discriminate|].
    split; [split; [exact Hr|reflexivity]|].
    split; [split; [exact Hr|reflexivity]|].
    intros Hok. discriminate.
Qed.

Lemma several_columns_witness :
  fst (add_value_rows "Group" (AFrame (Example.series 0 1) [Example.series 0 3]) Example.some_label
         Example.initial)
  = Raise (DataPreparationException "Given data must be a Series of single-column DataFrame!").
Proof.
  refine (proj2 (proj2 (proj2
            (several_columns_are_rejected "Group" (Example.series 0 1) (Example.series 0 3) []
               Example.some_label Example.initial Example.initial_item _)) _)).
  - vm_compute. reflexivity.
  - vm_compute. reflexivity.
Defined.

(** X3: a frame of one column that does not consist of a single row is
    handled exactly as the Series of that column. *)
Theorem one_column_frame_is_its_series group c (md : option metadata) s :
  length (pd.values c) <> 1%nat ->
  add_value_column group (AFrame c []) md s = add_value_column group (ASeries c) md s /\
  add_value_rows group (AFrame c []) md s = add_value_rows group (ASeries c) md s.
Proof.
  intros Hlen.
  assert (Hens : _ensure_is_series (AFrame c []) = _ensure_is_series (ASeries c)).
  { simpl. destruct (pd.values c) as [|[k v] [|kv rest]]; try reflexivity.
    simpl in Hlen. contradiction. }
  rewrite !add_value_column_run, !add_value_rows_run.
  destruct (PyDict.get group (datasets s)) as [item|]; [|split; reflexivity].
  change (_assert_indexes_match (Data item) (AFrame c []))
    with (_assert_indexes_match (Data item) (ASeries c)).
  rewrite Hens. split; reflexivity.
Qed.

Lemma one_column_frame_witness :
  add_value_rows "Group"
    (AFrame {| pd.name := PyStr "col1"; pd.index_names_s := [PyStr "ColA"];
               pd.values := [([0], Some 3); ([1], Some 4)] |} [])
    Example.some_label Example.initial
  = add_value_rows "Group"
      (ASeries {| pd.name := PyStr "col1"; pd.index_names_s := [PyStr "ColA"];
                  pd.values := [([0], Some 3); ([1], Some 4)] |})
      Example.some_label Example.initial.
Proof.
  refine (proj2 (one_column_frame_is_its_series "Group" _ Example.some_label Example.initial _)).
  simpl. lia.
Defined.

(** X4: a frame of one column and one row is squeezed to a scalar and is
    never added: neither operation returns normally, and the preparer
    stays as it was. *)
Theorem single_cell_frame_is_never_added group c k v (md : option metadata) s :
  pd.values c = [(k, v)] ->
  (fst (add_value_column group (AFrame c []) md s) <> Ok tt /\
   snd (add_value_column group (AFrame c []) md s) = s) /\
  (fst (add_value_rows group (AFrame c []) md s) <> Ok tt /\
   snd (add_value_rows group (AFrame c []) md s) = s).
Proof.
  intros Hv.
  assert (Hens : _ensure_is_series (AFrame c []) = Ok (IsScalar v)).
  { simpl. rewrite Hv. reflexivity. }
  rewrite add_value_column_run, add_value_rows_run.
  destruct (PyDict.get group (datasets s)) as [item|]; [|repeat split; discriminate].
  destruct (_assert_indexes_match (Data item) (AFrame c [])); [|repeat split; discriminate].
  rewrite Hens. repeat split; discriminate.
Qed.

Lemma single_cell_frame_witness :
  fst (add_value_rows "Group" (AFrame (Example.series 0 3) []) Example.some_label Example.initial)
  <> Ok tt.
Proof.
  refine (proj1 (proj2 (single_cell_frame_is_never_added "Group" (Example.series 0 3) [0] (Some 3)
                          Example.some_label Example.initial _))).
  reflexivity.
Defined.

(** X5: for a table whose index levels have distinct names,
    [_assert_indexes_match] passes exactly when the index names of the
    argument are those of the table in some order. *)
Theorem indexes_match_iff_same_names container (column : data_arg) :
  NoDup (pd.index_names container) ->
  (_assert_indexes_match container column = Ok tt <->
   pd.index_names container ≡ₚ arg_index_names column).
Proof.
  intros Hnd. split.
  - apply assert_indexes_match_same_names, Hnd.
  - intros Hperm. apply assert_indexes_match_Ok. split.
    + apply Permutation_length, Hperm.
    + intros x Hx. rewrite <- Hperm. exact Hx.
Qed.

Lemma indexes_match_witness :
  _assert_indexes_match
    {| pd.index_names := [PyStr "ColA"; PyStr "ColB"]; pd.columns := []; pd.rows := [] |}
    (ASeries {| pd.name := PyStr "V"; pd.index_names_s := [PyStr "ColB"; PyStr "ColA"];
                pd.values := [] |})
  = Ok tt.
Proof.
  apply (indexes_match_iff_same_names
           {| pd.index_names := [PyStr "ColA"; PyStr "ColB"]; pd.columns := []; pd.rows := [] |}).
  - by_computation.
  - simpl. apply Permutation_swap.
Defined.

(** ** Groups are created once and stay *)

(** What an operation does to [self.datasets]: nothing, or one assignment
    to the entry of its group. *)
Lemma run_datasets op s :
  datasets (snd (run op s)) = datasets s \/
  exists item',
    datasets (snd (run op s)) = PyDict.set (op_group op) item' (datasets s) /\
    (op_group op ∈ PyDict.keys (datasets s) \/
     ((op_group op ∉ PyDict.keys (datasets s)) /\ fst (run op s) = Ok tt /\
      exists r, op = InitDataGroup (op_group op) r)).
Proof.
  destruct op as [group key_metadata|group column md|group rows md]; simpl.
  - rewrite init_data_group_run.
    destruct (PyDict.mem group (datasets s)) eqn:Hmem; [left; reflexivity|].
    destruct (heap s !! key_metadata) as [d|]; [|left; reflexivity].
    destruct (pd.empty_indexed (PyDict.keys d)) as [df|e]; [|left; reflexivity].
    right. eexists. split; [reflexivity|]. right. split.
    + intros Hin. apply mem_true in Hin. congruence.
    + split; [reflexivity|]. eauto.
  - rewrite add_value_column_run.
    destruct (PyDict.get group (datasets s)) as [item|] eqn:Hitem; [|left; reflexivity].
    destruct (_assert_indexes_match (Data item) column); [|left; reflexivity].
    destruct (_ensure_is_series column) as [[c|v]|e]; try (left; reflexivity).
    destruct (pd.concat_columns (Data item) c); [|left; reflexivity].
    right. eexists. split.
    + cbn zeta. destruct (heap s !! Metadata item); reflexivity.
    + left. eapply get_Some_keys, Hitem.
  - rewrite add_value_rows_run.
    destruct (PyDict.get group (datasets s)) as [item|] eqn:Hitem; [|left; reflexivity].
    destruct (_assert_indexes_match (Data item) rows); [|left; reflexivity].
    destruct (_ensure_is_series rows) as [[r|v]|e]; try (left; reflexivity).
    cbn zeta.
    destruct (bool_decide (pd.name r ∈ pd.columns (Data item))).
    + destruct (pd.concat_rows _ _); [|left; reflexivity].
      right. eexists. split; [reflexivity|]. left. eapply get_Some_keys, Hitem.
    + destruct (metadata_given md); [|left; reflexivity].
      destruct (heap s !! Metadata item); [|left; reflexivity].
      destruct (pd.concat_rows _ _); [|left; reflexivity].
      right. eexists. split; [reflexivity|]. left. eapply get_Some_keys, Hitem.
Qed.

(** X6: a group name can be initialised once.  After [init_data_group]
    has succeeded, every further [init_data_group] for the name raises
    [DataPreparationException] and changes nothing. *)
Theorem group_is_initialised_once group r1 r2 s :
  fst (init_data_group group r1 s) = Ok tt ->
  init_data_group group r2 (snd (init_data_group group r1 s)) =
    (Raise (DataPreparationException ("Group name '" ++ group ++ "' already exists.")%string),
     snd (init_data_group group r1 s)).
Proof.
  rewrite (init_data_group_run group r1 s).
  destruct (PyDict.mem group (datasets s)); [discriminate|].
  destruct (heap s !! r1) as [d|]; [|discriminate].
  destruct (pd.empty_indexed (PyDict.keys d)) as [df|e]; [|discriminate].
  intros _. cbn [snd]. rewrite init_data_group_run. cbn [datasets].
  rewrite (get_mem _ _ _ (get_set_eq group _ (datasets s))). reflexivity.
Qed.

Lemma group_is_initialised_once_witness :
  is_DataPreparationException (fst (init_data_group "Group" 0%nat Example.initial)) = true.
Proof.
  unfold Example.initial.
  rewrite (group_is_initialised_once "Group" 0%nat 0%nat (new_preparer [Example.key_metadata])
             ltac:(vm_compute; reflexivity)).
  reflexivity.
Defined.



(** X8: no operation touches the table or the metadata slot of a group
    other than the one it is called for, whatever its outcome. *)
Theorem other_groups_are_untouched op s g :
  g <> op_group op ->
  PyDict.get g (datasets (snd (run op s))) = PyDict.get g (datasets s).
Proof.
  intros Hg. destruct (run_datasets op s) as [->|(item' & -> & _)]; [reflexivity|].
  apply get_set_ne. congruence.
Qed.

Lemma other_groups_witness :
  PyDict.get "Group"
    (datasets (snd (run (InitDataGroup "Other" 0%nat) (Example.one_call 0 0))))
  = PyDict.get "Group" (datasets (Example.one_call 0 0)).
Proof.
  apply (other_groups_are_untouched (InitDataGroup "Other" 0%nat) (Example.one_call 0 0) "Group").
  discriminate.
Defined.

(** X9: groups are never removed, renamed or reordered: after any
    operation the group names are those before, and a successful
    [init_data_group] puts its new name last. *)
Theorem group_names_are_kept op s :
  PyDict.keys (datasets (snd (run op s))) = PyDict.keys (datasets s) \/
  (fst (run op s) = Ok tt /\
   (exists r, op = InitDataGroup (op_group op) r) /\
   (op_group op ∉ PyDict.keys (datasets s)) /\
   PyDict.keys (datasets (snd (run op s))) = PyDict.keys (datasets s) ++ [op_group op]).
Proof.
  destruct (run_datasets op s) as [->|(item' & -> & [Hin|(Hnew & Hok & Hinit)])].
  - left. reflexivity.
  - left. apply keys_set_known, Hin.
  - right. split; [exact Hok|]. split; [exact Hinit|]. split; [exact Hnew|].
    apply keys_set_new, Hnew.
Qed.

(** ** The container file *)






Lemma contains_app_r (sub p q : string) :
  Str.contains sub q = true -> Str.contains sub (p ++ q)%string = true.
Proof.
  intros Hq. induction p as [|c p IH]; [exact Hq|].
  change (String c p ++ q)%string with (String c (p ++ q)%string).
  apply contains_tail, IH.
Qed.

(** X11: the name [save_to_file] writes to always holds one of the three
    suffixes, and computing the name again from it changes nothing. *)
Theorem out_path_is_stable (p : string) :
  existsb (fun extension => Str.contains extension (out_path p)) extensions = true /\
  out_path (out_path p) = out_path p.
Proof.
  assert (Hhas : existsb (fun extension => Str.contains extension (out_path p)) extensions = true).
  { unfold out_path at 1.
    destruct (existsb (fun extension => Str.contains extension p) extensions) eqn:Hp;
      cbn [negb].
    - exact Hp.
    - apply existsb_exists. exists "hdf5". split; [right; left; reflexivity|].
      apply contains_app_r. reflexivity. }
  split; [exact Hhas|].
  unfold out_path at 1. rewrite Hhas. reflexivity.
Qed.

(** X12: a path that ends in [.h5], [.hdf5] or [.he5] is the name of the
    file [save_to_file] writes. *)
Theorem recognized_extension_is_kept (p : string) (s : state) :
  spec_has_recognized_extension p = true ->
  path (snd (save_to_file p s)) = p.
Proof.
  intros Hext. rewrite save_to_file_path. apply out_path_with_extension, Hext.
Qed.

Lemma recognized_extension_witness :
  path (snd (save_to_file "./deleteFile.he5" (new_preparer []))) = "./deleteFile.he5".
Proof.
  apply (recognized_extension_is_kept "./deleteFile.he5" (new_preparer [])).
  vm_compute. reflexivity.
Defined.

Lemma convert_enums_None (md : metadata_dict) k :
  (k, None) ∈ md -> _convert_enums md = Raise (OtherException "AttributeError").
Proof.
  induction md as [|[k0 [entries|]] md IH]; intros Hin.
  - inversion Hin.
  - simpl. rewrite IH; [reflexivity|].
    apply elem_of_cons in Hin as [Heq|Hin]; [discriminate|exact Hin].
  - reflexivity.
Qed.

Lemma group_by_index_not_DPE data :
  is_DataPreparationException (_group_by_index data) = false.
Proof.
  unfold _group_by_index, pd.groupby_index_sum.
  destruct (bool_decide _); [reflexivity|]. destruct (existsb _ _); reflexivity.
Qed.

Lemma convert_enums_not_DPE (md : metadata_dict) :
  is_DataPreparationException (_convert_enums md) = false.
Proof.
  induction md as [|[k [entries|]] md IH]; simpl; try reflexivity.
  destruct (_convert_enums md) as [rest|e]; [reflexivity|exact IH].
Qed.

Lemma write_items_poisoned h items store g item md k :
  (g, item) ∈ items ->
  h !! Metadata item = Some md ->
  (k, None) ∈ md ->
  fst (write_items h items store) <> Ok tt.
Proof.
  revert store. induction items as [|[key it] items IH]; intros store Hin Hmd Hnone.
  - inversion Hin.
  - simpl. destruct (_group_by_index (Data it)) as [value|e]; [|discriminate].
    destruct (put key value store) as [store1|e]; [|discriminate].
    apply elem_of_cons in Hin as [Heq|Hin].
    + injection Heq as <- <-. rewrite Hmd, (convert_enums_None md k Hnone). discriminate.
    + destruct (h !! Metadata it) as [md'|]; [|discriminate].
      destruct (_convert_enums md') as [conv|e]; [|discriminate].
      apply (IH _ Hin Hmd Hnone).
Qed.

(** X13: metadata that are [None] are accepted when a column is added but
    cannot be written: as long as the metadata dict of some group holds a
    record that is [None], [save_to_file] does not return normally. *)
Theorem None_metadata_cannot_be_saved p s g item md k :
  (g, item) ∈ datasets s ->
  heap s !! Metadata item = Some md ->
  (k, None) ∈ md ->
  fst (save_to_file p s) <> Ok tt.
Proof. intros Hin Hmd Hnone. eapply write_items_poisoned; eassumption. Qed.

Lemma None_metadata_witness :
  fst (add_value_column "Group" (ASeries (Example.series 0 0)) None Example.initial) = Ok tt /\
  fst (save_to_file "out.h5"
         (snd (add_value_column "Group" (ASeries (Example.series 0 0)) None Example.initial)))
  <> Ok tt.
Proof.
  split; [vm_compute; reflexivity|].
  apply (None_metadata_cannot_be_saved "out.h5" _ "Group"
           {| Data := {| pd.index_names := [PyStr "ColA"];
                         pd.columns := [PyStr "MyValueColumn"];
                         pd.rows := [([0], [Some 0])] |};
              Metadata := 0%nat |}
           [(PyStr "ColA", Some (column_metadata_default (PyStr "A")));
            (PyStr "MyValueColumn", None)]
           (PyStr "MyValueColumn")).
  - vm_compute. apply list_elem_of_here.
  - vm_compute. reflexivity.
  - by_computation.
Defined.

Lemma write_items_not_DPE h items store :
  is_DataPreparationException (fst (write_items h items store)) = false.
Proof.
  revert store. induction items as [|[key item] items IH]; intros store; simpl; [reflexivity|].
  pose proof (group_by_index_not_DPE (Data item)) as Hg.
  destruct (_group_by_index (Data item)) as [value|e]; [|exact Hg].
  pose proof (put_not_DPE key value store) as Hp.
  destruct (put key value store) as [store1|e]; [|exact Hp].
  destruct (h !! Metadata item) as [md|]; [|reflexivity].
  pose proof (convert_enums_not_DPE md) as Hc.
  destruct (_convert_enums md) as [conv|e]; [apply IH|exact Hc].
Qed.

(** X14: [save_to_file] never raises [DataPreparationException]: what
    goes wrong while writing comes from pandas or from Python. *)
Theorem save_to_file_never_raises_DPE p s :
  is_DataPreparationException (fst (save_to_file p s)) = false.
Proof. apply write_items_not_DPE. Qed.

(** ** Reading the metadata block *)





(** ** The table grouped by its index *)

Lemma group_by_index_Ok t w :
  _group_by_index t = Ok w ->
  w = {| pd.index_names := pd.index_names t;
         pd.columns := pd.columns t;
         pd.rows :=
           map (fun k => (k, map (fun j => Some (pd.group_sum j (pd.rows t) k))
                                 (seq 0 (length (pd.columns t)))))
               (pd.group_keys (pd.keys (pd.rows t))) |} /\
  (PyNone ∉ pd.index_names t) /\
  (forall n, n ∈ pd.index_names t -> n ∉ pd.columns t).
Proof.
  unfold _group_by_index, pd.groupby_index_sum.
  destruct (bool_decide (PyNone ∈ pd.index_names t)) eqn:Hnone; [discriminate|].
  destruct (existsb _ _) eqn:Hamb; [discriminate|].
  intros [= <-]. split; [reflexivity|]. split.
  - apply bool_decide_eq_false in Hnone. exact Hnone.
  - intros n Hn Hc. apply not_true_iff_false in Hamb. apply Hamb.
    apply existsb_exists. exists n. split; [apply list_elem_of_In, Hn|].
    apply bool_decide_eq_true_2, Hc.
Qed.

Lemma nth_map_seq {A} (f : nat -> A) (n j : nat) (d : A) :
  (j < n)%nat -> nth j (map f (seq 0 n)) d = f j.
Proof. intros Hj. rewrite nth_lookup, lookup_map_seq by exact Hj. reflexivity. Qed.

Lemma group_keys_of_sorted (l : list pd.key) :
  StronglySorted key_lt l -> pd.group_keys l = l.
Proof.
  induction 1 as [|x l Hs IH Hall]; simpl; [reflexivity|].
  rewrite IH. destruct l as [|y l]; [reflexivity|].
  simpl. apply Forall_cons in Hall as [Hxy _]. unfold key_lt in Hxy. rewrite Hxy. reflexivity.
Qed.

Lemma group_of_keyed_rows {A} (f : pd.key -> list A) (k : pd.key) (ks : list pd.key) :
  NoDup ks -> k ∈ ks ->
  filter (fun r : pd.key * list A => fst r = k) (map (fun k => (k, f k)) ks) = [(k, f k)].
Proof.
  induction 1 as [|k0 ks Hk0 Hnd IH]; intros Hin; [inversion Hin|].
  simpl. rewrite filter_cons. simpl.
  destruct (decide (k0 = k)) as [->|Hne].
  - f_equal. clear IH Hin Hnd. induction ks as [|k1 ks IH]; [reflexivity|].
    simpl. rewrite filter_cons. simpl. rewrite not_elem_of_cons in Hk0. destruct Hk0 as [Hne Hk0].
    destruct (decide (k1 = k)); [congruence|]. apply IH, Hk0.
  - apply IH. apply elem_of_cons in Hin as [->|Hin]; [contradiction|exact Hin].
Qed.

(** The column [j] of a grouped table holds the sums of the groups. *)
Lemma grouped_column_cells (g : nat -> pd.key -> Z) (n j : nat) (ks : list pd.key) :
  (j < n)%nat ->
  pd.column_cells j (map (fun k => (k, map (fun j => Some (g j k)) (seq 0 n))) ks)
  = map (fun k => Some (g j k)) ks.
Proof.
  intros Hj. unfold pd.column_cells. rewrite map_map. apply map_ext. intros k. simpl.
  apply (nth_map_seq (fun j => Some (g j k)) _ _ None Hj).
Qed.









(** X16: the table [_group_by_index] returns has the index names and the
    columns of the table it was given and the same index entries, each
    once and in ascending order; every row has a cell for every column,
    and none of them is NaN. *)
Theorem grouped_table_shape t w :
  _group_by_index t = Ok w ->
  pd.index_names w = pd.index_names t /\
  pd.columns w = pd.columns t /\
  StronglySorted key_lt (pd.keys (pd.rows w)) /\
  (forall k, k ∈ pd.keys (pd.rows w) <-> k ∈ pd.keys (pd.rows t)) /\
  Forall (fun r => length (snd r) = length (pd.columns w) /\ Forall (fun c => c <> None) (snd r))
         (pd.rows w).
Proof.
  intros Hw. apply group_by_index_Ok in Hw as (-> & _ & _). cbn [pd.index_names pd.columns pd.rows].
  split; [reflexivity|]. split; [reflexivity|]. rewrite keys_map_keys.
  split; [apply group_keys_sorted|]. split; [intros k; apply elem_of_group_keys|].
  apply Forall_forall. intros r Hr.
  apply list_elem_of_In, in_map_iff in Hr as (k & <- & _). simpl. split.
  - rewrite length_map, length_seq. reflexivity.
  - apply Forall_forall. intros c Hc.
    apply list_elem_of_In, in_map_iff in Hc as (j & <- & _). discriminate.
Qed.

Lemma grouped_table_shape_witness :
  StronglySorted key_lt
    [[1]; [3]].
Proof.
  refine (proj1 (proj2 (proj2
            (grouped_table_shape
               {| pd.index_names := [PyStr "ColA"]; pd.columns := [PyStr "V"];
                  pd.rows := [([3], [Some 5]); ([1], [Some 1]); ([3], [Some 7])] |}
               {| pd.index_names := [PyStr "ColA"]; pd.columns := [PyStr "V"];
                  pd.rows := [([1], [Some 1]); ([3], [Some 12])] |} _)))).
  vm_compute. reflexivity.
Defined.



(** The sum of [int64] numbers is an [int64] number, and the sum of
    [float64] numbers a [float64] number. *)
Lemma int64_sum_in_int64 (l : list Z) : pd.in_int64 (pd.int64_sum l) = true.
Proof.
  unfold pd.int64_sum. assert (H0 : pd.in_int64 0 = true) by reflexivity.
  revert H0. generalize 0. induction l as [|x l IH]; intros acc Hacc; simpl; [exact Hacc|].
  apply IH, wrap64_in_int64.
Qed.

Lemma kahan_sum_is_float (sumx compensation : Z) (l : list Z) :
  pd.round_f64 sumx = sumx ->
  pd.round_f64 (pd.kahan_sum sumx compensation l) = pd.kahan_sum sumx compensation l.
Proof.
  revert sumx compensation. induction l as [|x l IH]; intros sumx c Hs; simpl; [exact Hs|].
  apply IH. unfold pd.fadd. apply round_f64_idempotent.
Qed.

Lemma float64_sum_is_float (l : list Z) : pd.round_f64 (pd.float64_sum l) = pd.float64_sum l.
Proof. apply kahan_sum_is_float. reflexivity. Qed.

(** A sum is the sum of itself alone, in its number type. *)
Lemma int64_sum_single (v : Z) : pd.in_int64 v = true -> pd.int64_sum [v] = v.
Proof.
  unfold pd.int64_sum, pd.in_int64. simpl. intros Hv.
  apply andb_true_iff in Hv as [Hlo Hhi]. apply Z.leb_le in Hlo. apply Z.ltb_lt in Hhi.
  apply wrap64_exact. lia.
Qed.

Lemma float64_sum_single (v : Z) : pd.round_f64 v = v -> pd.float64_sum [v] = v.
Proof.
  intros Hv. unfold pd.float64_sum. simpl. unfold pd.fadd, pd.fsub.
  rewrite Hv, Z.sub_0_r, Hv. simpl. exact Hv.
Qed.

Lemma is_float_false (cells : list pd.cell) (v : Z) :
  pd.is_float cells = false -> Some v ∈ cells -> pd.in_int64 v = true.
Proof.
  unfold pd.is_float. intros Hf Hin.
  destruct (pd.in_int64 v) eqn:Hv; [reflexivity|]. exfalso.
  apply not_true_iff_false in Hf. apply Hf, existsb_exists.
  exists (Some v). split; [apply list_elem_of_In, Hin|]. rewrite Hv. reflexivity.
Qed.

Lemma is_float_of_int64 {A} (g : A -> Z) (l : list A) :
  (forall x, pd.in_int64 (g x) = true) ->
  pd.is_float (map (fun x => Some (g x)) l) = false.
Proof.
  intros Hg. unfold pd.is_float. induction l as [|x l IH]; simpl; [reflexivity|].
  rewrite Hg, IH. reflexivity.
Qed.

(** X18: grouping a grouped table changes nothing. *)
Theorem grouping_is_idempotent t w :
  _group_by_index t = Ok w -> _group_by_index w = Ok w.
Proof.
  intros Hw. apply group_by_index_Ok in Hw as (-> & Hnone & Hamb).
  rewrite group_by_index_defined by assumption.
  cbn [pd.index_names pd.columns pd.rows]. rewrite keys_map_keys.
  rewrite (group_keys_of_sorted _ (group_keys_sorted _)).
  do 2 f_equal. apply map_ext_in. intros k Hk. f_equal.
  apply map_ext_in. intros j Hj. f_equal.
  apply in_seq in Hj. assert (Hj' : (j < length (pd.columns t))%nat) by lia.
  unfold pd.group_sum at 1. unfold pd.group.
  rewrite group_of_keyed_rows by (try apply group_keys_NoDup; apply list_elem_of_In, Hk).
  rewrite (grouped_column_cells (fun j k => pd.group_sum j (pd.rows t) k) _ _ _ Hj').
  cbn [pd.column_cells map snd]. rewrite (nth_map_seq _ _ _ None Hj'). cbn [pd.present].
  destruct (pd.is_float (map _ _)) eqn:Hfloat.
  - apply float64_sum_single. unfold pd.group_sum.
    destruct (pd.is_float (pd.column_cells j (pd.rows t))) eqn:Hcol.
    + apply float64_sum_is_float.
    + exfalso. apply not_false_iff_true in Hfloat. apply Hfloat.
      apply (is_float_of_int64 (fun k => pd.group_sum j (pd.rows t) k)).
      intros k'. unfold pd.group_sum. rewrite Hcol. apply int64_sum_in_int64.
  - apply int64_sum_single. apply (is_float_false _ _ Hfloat).
    apply list_elem_of_In, in_map_iff. exists k. split; [reflexivity|exact Hk].
Qed.

Lemma grouping_is_idempotent_witness :
  _group_by_index {| pd.index_names := [PyStr "ColA"]; pd.columns := [PyStr "V"];
                     pd.rows := [([1], [Some 1]); ([3], [Some 12])] |}
  = Ok {| pd.index_names := [PyStr "ColA"]; pd.columns := [PyStr "V"];
          pd.rows := [([1], [Some 1]); ([3], [Some 12])] |}.
Proof.
  apply (grouping_is_idempotent
           {| pd.index_names := [PyStr "ColA"]; pd.columns := [PyStr "V"];
              pd.rows := [([3], [Some 5]); ([1], [Some 1]); ([3], [Some 7])] |}).
  vm_compute. reflexivity.
Defined.

(** ** The first rows of a group, and column labels *)

Lemma add_value_rows_to_empty_table group r (md : option metadata) s item d :
  PyDict.get group (datasets s) = Some item ->
  heap s !! Metadata item = Some d ->
  pd.columns (Data item) = [] ->
  pd.rows (Data item) = [] ->
  pd.index_names_s r = pd.index_names (Data item) ->
  pd.name r <> PyNone ->
  metadata_given md = true ->
  fst (add_value_rows group (ASeries r) md s) = Ok tt /\
  PyDict.get group (datasets (snd (add_value_rows group (ASeries r) md s))) =
    Some {| Data := pd.to_frame r; Metadata := Metadata item |}.
Proof.
  intros Hitem Hd Hcols Hrows Hnames Hname Hmd.
  assert (Hnd : NoDup (pd.columns (Data item))) by (rewrite Hcols; constructor).
  destruct (add_value_rows_appends group r md s item d Hitem Hd Hnames Hnd Hname (or_intror Hmd))
    as (s' & data & d' & Hrun & Hitem' & _ & _ & Hidx & Hc & Hr).
  rewrite Hrun. cbn [fst snd]. split; [reflexivity|]. rewrite Hitem'. do 2 f_equal.
  rewrite Hcols in Hc. rewrite bool_decide_eq_false_2 in Hc by (intros Hin; inversion Hin).
  simpl in Hc. rewrite Hrows, Hcols in Hr. simpl in Hr.
  destruct data as [names cols rows]. simpl in *. subst names cols rows.
  unfold pd.to_frame. rewrite (column_label_named _ Hname), Hnames. reflexivity.
Qed.

(** X19: rows added to a group that has no columns and no rows yet make
    up its table as they are: one column under the name of the series,
    one row per value, in the order given. *)
Theorem first_rows_make_the_table group r (md : option metadata) s item d :
  PyDict.get group (datasets s) = Some item ->
  heap s !! Metadata item = Some d ->
  pd.columns (Data item) = [] ->
  pd.rows (Data item) = [] ->
  pd.index_names_s r = pd.index_names (Data item) ->
  pd.name r <> PyNone ->
  metadata_given md = true ->
  fst (add_value_rows group (ASeries r) md s) = Ok tt /\
  PyDict.get group (datasets (snd (add_value_rows group (ASeries r) md s))) =
    Some {| Data := pd.to_frame r; Metadata := Metadata item |}.
Proof. apply add_value_rows_to_empty_table. Qed.

Lemma first_rows_witness :
  PyDict.get "Group" (datasets (Example.one_call 3 5))
  = Some {| Data := pd.to_frame (Example.series 3 5); Metadata := 0%nat |}.
Proof.
  refine (proj2 (first_rows_make_the_table "Group" (Example.series 3 5) Example.some_label
                   Example.initial Example.initial_item Example.key_metadata
                   _ _ _ _ _ _ _)).
  - vm_compute. reflexivity.
  - vm_compute. reflexivity.
  - reflexivity.
  - reflexivity.
  - reflexivity.
  - discriminate.
  - reflexivity.
Defined.

Lemma column_label_not_None (n : pyval) : pd.column_label n <> PyNone.
Proof. destruct n; discriminate. Qed.

Lemma concat_columns_columns container column data :
  pd.concat_columns container column = Ok data ->
  pd.columns data = pd.columns container ++ [pd.column_label (pd.name column)].
Proof.
  unfold pd.concat_columns. destruct (pd.is_empty _ _) eqn:He.
  - apply is_empty_true in He as [_ ->]. intros [= <-]. reflexivity.
  - destruct (bool_decide _); [intros [= <-]; reflexivity|].
    destruct (_ && _); [intros [= <-]; reflexivity|discriminate].
Qed.

Lemma concat_rows_columns container r data :
  pd.concat_rows container (pd.to_frame r) = Ok data ->
  pd.columns data =
    (if bool_decide (pd.column_label (pd.name r) ∈ pd.columns container)
     then pd.columns container
     else pd.columns container ++ [pd.column_label (pd.name r)]).
Proof.
  unfold pd.concat_rows. destruct (pd.is_empty _ _) eqn:He.
  - apply is_empty_true in He as [_ ->]. intros [= <-]. reflexivity.
  - destruct (bool_decide (NoDup _)); [|discriminate].
    intros [= <-]. reflexivity.
Qed.

Lemma labels_after_set s group item' h' :
  labels_not_None s ->
  PyNone ∉ pd.columns (Data item') ->
  labels_not_None {| heap := h'; datasets := PyDict.set group item' (datasets s) |}.
Proof.
  intros Hinv Hnew g item Hg. cbn [datasets] in Hg.
  destruct (decide (g = group)) as [->|Hne].
  - rewrite get_set_eq in Hg. injection Hg as <-. exact Hnew.
  - rewrite get_set_ne in Hg by congruence. eapply Hinv, Hg.
Qed.

Lemma labels_same_datasets s h' :
  labels_not_None s -> labels_not_None {| heap := h'; datasets := datasets s |}.
Proof. intros Hinv g item Hg. eapply Hinv, Hg. Qed.

(** X20: no table ever gets a column labelled [None]: a preparer whose
    tables have none keeps that under every operation (a series without
    a name becomes the column [0]). *)
Theorem column_labels_are_never_None op s :
  labels_not_None s -> labels_not_None (snd (run op s)).
Proof.
  intros Hinv.
  destruct op as [group key_metadata|group column md|group rows md]; simpl.
  - rewrite init_data_group_run.
    destruct (PyDict.mem group (datasets s)); [exact Hinv|].
    destruct (heap s !! key_metadata) as [d|]; [|exact Hinv].
    destruct (PyDict.keys d) as [|k ks]; simpl; [exact Hinv|].
    apply labels_after_set; [exact Hinv|]. simpl. intros Hin. inversion Hin.
  - rewrite add_value_column_run.
    destruct (PyDict.get group (datasets s)) as [item|] eqn:Hitem; [|exact Hinv].
    destruct (_assert_indexes_match (Data item) column); [|exact Hinv].
    destruct (_ensure_is_series column) as [[c|v]|e]; try exact Hinv.
    destruct (pd.concat_columns (Data item) c) as [data|e] eqn:Hdata; [|exact Hinv].
    assert (Hnew : PyNone ∉ pd.columns data).
    { rewrite (concat_columns_columns _ _ _ Hdata), elem_of_app, list_elem_of_singleton.
      intros [Hin|Heq]; [eapply Hinv; eassumption|].
      eapply column_label_not_None. symmetry. exact Heq. }
    cbn zeta. destruct (heap s !! Metadata item); cbn [snd];
      apply labels_after_set; assumption.
  - rewrite add_value_rows_run.
    destruct (PyDict.get group (datasets s)) as [item|] eqn:Hitem; [|exact Hinv].
    destruct (_assert_indexes_match (Data item) rows); [|exact Hinv].
    destruct (_ensure_is_series rows) as [[r|v]|e]; try exact Hinv.
    cbn zeta.
    assert (Hnew : forall data, pd.concat_rows (Data item) (pd.to_frame r) = Ok data ->
                                PyNone ∉ pd.columns data).
    { intros data Hdata. rewrite (concat_rows_columns _ _ _ Hdata).
      destruct (bool_decide _); [eapply Hinv; eassumption|].
      rewrite elem_of_app, list_elem_of_singleton.
      intros [Hin|Heq]; [eapply Hinv; eassumption|].
      eapply column_label_not_None. symmetry. exact Heq. }
    destruct (bool_decide (pd.name r ∈ pd.columns (Data item))).
    + destruct (pd.concat_rows _ _) as [data|e]; [|exact Hinv].
      cbn [snd]. apply labels_after_set; [exact Hinv|apply Hnew; reflexivity].
    + destruct (metadata_given md); [|exact Hinv].
      destruct (heap s !! Metadata item) as [d|]; [|exact Hinv].
      destruct (pd.concat_rows _ _) as [data|e]; cbn [snd].
      * apply (labels_after_set {| heap := _; datasets := datasets s |});
          [apply labels_same_datasets, Hinv|apply Hnew; reflexivity].
      * apply labels_same_datasets, Hinv.
Qed.

Lemma column_labels_witness :
  labels_not_None
    (snd (run (AddValueRows "Group" (ASeries (Example.series 0 0)) Example.some_label)
              Example.initial)).
Proof.
  apply (column_labels_are_never_None
           (AddValueRows "Group" (ASeries (Example.series 0 0)) Example.some_label)
           Example.initial).
  intros g item Hg.
  assert (Hds : datasets Example.initial = [("Group", Example.initial_item)])
    by (vm_compute; reflexivity).
  rewrite Hds in Hg. cbn [PyDict.get] in Hg.
  destruct (decide (g = "Group")); [|discriminate].
  injection Hg as <-. simpl. intros Hin. inversion Hin.
Defined.

(** X21: rows without a name always count as a new column.  In a
    preparer whose tables have no column labelled [None], rows of a
    series without a name that pass the checks are rejected when no
    metadata come with them, even after such rows have been added. *)
Theorem unnamed_rows_always_need_metadata group rows r (md : option metadata) s item :
  labels_not_None s ->
  PyDict.get group (datasets s) = Some item ->
  _assert_indexes_match (Data item) rows = Ok tt ->
  _ensure_is_series rows = Ok (IsSeries r) ->
  pd.name r = PyNone ->
  metadata_given md = false ->
  add_value_rows group rows md s =
    (Raise (DataPreparationException "No metadata specified for new column 'None'."), s).
Proof.
  intros Hinv Hitem Hmatch Hens Hname Hmd.
  rewrite add_value_rows_run, Hitem, Hmatch, Hens. cbn zeta.
  rewrite Hname, Hmd. rewrite bool_decide_eq_false_2 by (eapply Hinv, Hitem). reflexivity.
Qed.

Lemma labels_not_None_single s g0 item0 :
  datasets s = [(g0, item0)] ->
  PyNone ∉ pd.columns (Data item0) ->
  labels_not_None s.
Proof.
  intros Hds Hnew g item Hg. rewrite Hds in Hg. cbn [PyDict.get] in Hg.
  destruct (decide (g = g0)); [|discriminate]. injection Hg as <-. exact Hnew.
Qed.

Lemma unnamed_rows_witness :
  fst (add_value_rows "Group" (ASeries (Example.unnamed 0 0)) Example.some_label Example.initial)
  = Ok tt /\
  is_DataPreparationException
    (fst (add_value_rows "Group" (ASeries (Example.unnamed 1 1)) (Some [])
            (snd (add_value_rows "Group" (ASeries (Example.unnamed 0 0)) Example.some_label
                    Example.initial)))) = true.
Proof.
  split; [vm_compute; reflexivity|].
  rewrite (unnamed_rows_always_need_metadata "Group" (ASeries (Example.unnamed 1 1))
             (Example.unnamed 1 1) (Some []) _
             {| Data := {| pd.index_names := [PyStr "ColA"]; pd.columns := [PyInt 0];
                           pd.rows := [([0], [Some 0])] |};
                Metadata := 0%nat |}).
  - reflexivity.
  - eapply labels_not_None_single; [vm_compute; reflexivity|]. by_computation.
  - vm_compute. reflexivity.
  - vm_compute. reflexivity.
  - reflexivity.
  - reflexivity.
  - reflexivity.
Defined.

(** ** One dict for several groups *)

(** X22: the preparer keeps the dict it was given and does not copy it.
    When two groups hold the same dict, metadata registered through rows
    for one of them are registered for the other as well, whose table
    does not change. *)
Theorem shared_dict_is_updated_for_both g1 g2 rows r (md : option metadata) s item1 item2 d :
  PyDict.get g1 (datasets s) = Some item1 ->
  PyDict.get g2 (datasets s) = Some item2 ->
  g1 <> g2 ->
  Metadata item2 = Metadata item1 ->
  heap s !! Metadata item1 = Some d ->
  _assert_indexes_match (Data item1) rows = Ok tt ->
  _ensure_is_series rows = Ok (IsSeries r) ->
  pd.name r ∉ pd.columns (Data item1) ->
  metadata_given md = true ->
  let s' := snd (add_value_rows g1 rows md s) in
  PyDict.get g2 (datasets s') = Some item2 /\
  exists d', heap s' !! Metadata item2 = Some d' /\
             PyDict.get (pd.name r) d' = Some md.
Proof.
  intros H1 H2 Hne Href Hd Hmatch Hens Hnew Hmd s'. subst s'.
  rewrite add_value_rows_run, H1, Hmatch, Hens. cbn zeta.
  rewrite (bool_decide_eq_false_2 _ Hnew), Hmd, Hd, Href.
  destruct (pd.concat_rows (Data item1) (pd.to_frame r)) as [data|e]; cbn [snd datasets heap].
  - split; [rewrite get_set_ne by exact Hne; exact H2|].
    eexists. split; [eapply heap_insert_lookup, Hd|apply get_set_eq].
  - split; [exact H2|].
    eexists. split; [eapply heap_insert_lookup, Hd|apply get_set_eq].
Qed.

(** ** The message of the index check *)

(** X23: when the numbers of index levels differ, the index check says
    so; when they agree, it names the first level of the group (in the
    order of its key columns) that the argument lacks. *)
Theorem index_check_names_first_missing container (column : data_arg) :
  (length (pd.index_names container) <> length (arg_index_names column) ->
   _assert_indexes_match container column =
     Raise (DataPreparationException
              "Length of index in column to add does not match that of the assigned data group."))
  /\
  (forall pre x post,
     pd.index_names container = pre ++ x :: post ->
     length (pd.index_names container) = length (arg_index_names column) ->
     (forall y, y ∈ pre -> y ∈ arg_index_names column) ->
     x ∉ arg_index_names column ->
     _assert_indexes_match container column =
       Raise (DataPreparationException
                ("Index column '" ++ py_str x ++ "' not found in index of column to add.")%string)).
Proof.
  unfold _assert_indexes_match. split.
  - intros Hlen. apply Nat.eqb_neq in Hlen. rewrite Hlen. reflexivity.
  - intros pre x post -> Hlen Hpre Hx. apply Nat.eqb_eq in Hlen. rewrite Hlen. cbn [negb].
    clear Hlen. induction pre as [|y pre IH]; simpl.
    + rewrite (bool_decide_eq_false_2 _ Hx). reflexivity.
    + rewrite bool_decide_eq_true_2 by (apply Hpre, list_elem_of_here). simpl.
      apply IH. intros z Hz. apply Hpre, list_elem_of_further, Hz.
Qed.

Lemma shared_dict_witness :
  exists d', heap (snd (add_value_rows "A" (ASeries (Example.series 0 0)) Example.some_label
                          Example.two_groups)) !! 0%nat = Some d' /\
             PyDict.get (PyStr "MyValueColumn") d' = Some Example.some_label.
Proof.
  refine (proj2 (shared_dict_is_updated_for_both "A" "B" (ASeries (Example.series 0 0))
                   (Example.series 0 0) Example.some_label Example.two_groups
                   Example.initial_item Example.initial_item Example.key_metadata
                   _ _ _ _ _ _ _ _ _)).
  - vm_compute. reflexivity.
  - vm_compute. reflexivity.
  - discriminate.
  - reflexivity.
  - vm_compute. reflexivity.
  - vm_compute. reflexivity.
  - reflexivity.
  - by_computation.
  - reflexivity.
Defined.

Lemma index_check_message_witness :
  _assert_indexes_match (Data Example.initial_item) (ASeries Example.misnamed)
  = Raise (DataPreparationException "Index column 'ColA' not found in index of column to add.").
Proof.
  refine (proj2 (index_check_names_first_missing (Data Example.initial_item)
                   (ASeries Example.misnamed)) [] (PyStr "ColA") [] _ _ _ _).
  - reflexivity.
  - reflexivity.
  - intros y Hy. inversion Hy.
  - by_computation.
Defined.

(** ** Every column has its metadata *)

Lemma keys_set_incl {V} (k k' : pyval) (v : V) (d : list (pyval * V)) :
  k' ∈ PyDict.keys d -> k' ∈ PyDict.keys (PyDict.set k v d).
Proof.
  intros Hin. destruct (decide (k ∈ PyDict.keys d)) as [Hk|Hk].
  - rewrite keys_set_known by exact Hk. exact Hin.
  - rewrite keys_set_new by exact Hk. apply elem_of_app. left. exact Hin.
Qed.

Lemma keys_set_self {V} (k : pyval) (v : V) (d : list (pyval * V)) :
  k ∈ PyDict.keys (PyDict.set k v d).
Proof. eapply get_Some_keys, get_set_eq. Qed.

(** Registering a name in one dict keeps the registered columns of every
    group registered. *)
Lemma registered_after_update s (r0 : ref) (d0 : metadata_dict) k v :
  columns_registered s ->
  heap s !! r0 = Some d0 ->
  columns_registered {| heap := <[r0 := PyDict.set k v d0]> (heap s); datasets := datasets s |}.
Proof.
  intros Hinv Hd0 g item md c Hg Hmd Hc. cbn [heap datasets] in *.
  destruct (decide (Metadata item = r0)) as [Heq|Hne].
  - rewrite Heq, (heap_insert_lookup _ _ _ _ Hd0) in Hmd. injection Hmd as <-.
    apply keys_set_incl. eapply Hinv; [exact Hg| |exact Hc]. rewrite Heq. exact Hd0.
  - rewrite list_lookup_insert_ne in Hmd by congruence. eapply Hinv; eassumption.
Qed.

(** Replacing the table of a group keeps the columns registered when the
    columns of the new table are. *)
Lemma registered_after_set s group item item' :
  columns_registered s ->
  PyDict.get group (datasets s) = Some item ->
  Metadata item' = Metadata item ->
  (forall md c, heap s !! Metadata item = Some md ->
                c ∈ pd.columns (Data item') -> c ∈ PyDict.keys md) ->
  columns_registered {| heap := heap s; datasets := PyDict.set group item' (datasets s) |}.
Proof.
  intros Hinv Hitem Href Hnew g it md c Hg Hmd Hc. cbn [heap datasets] in *.
  destruct (decide (g = group)) as [->|Hne].
  - rewrite get_set_eq in Hg. injection Hg as <-. rewrite Href in Hmd. eapply Hnew; eassumption.
  - rewrite get_set_ne in Hg by congruence. eapply Hinv; eassumption.
Qed.

(** X24: every column has its metadata.  If every column of every table
    has an entry in the metadata dict of its group, this is still so
    after any operation whose column or rows have a name. *)
Theorem columns_stay_registered op s :
  op_named op ->
  columns_registered s ->
  columns_registered (snd (run op s)).
Proof.
  intros Hnamed Hinv.
  destruct op as [group key_metadata|group column md|group rows md]; simpl in *.
  - rewrite init_data_group_run.
    destruct (PyDict.mem group (datasets s)); [exact Hinv|].
    destruct (heap s !! key_metadata) as [d|]; [|exact Hinv].
    destruct (PyDict.keys d) as [|k ks]; simpl; [exact Hinv|].
    intros g it md c Hg Hmd Hc. cbn [heap datasets] in *.
    destruct (decide (g = group)) as [->|Hne].
    + rewrite get_set_eq in Hg. injection Hg as <-. simpl in Hc. inversion Hc.
    + rewrite get_set_ne in Hg by congruence. eapply Hinv; eassumption.
  - rewrite add_value_column_run.
    destruct (PyDict.get group (datasets s)) as [item|] eqn:Hitem; [|exact Hinv].
    destruct (_assert_indexes_match (Data item) column); [|exact Hinv].
    destruct (_ensure_is_series column) as [[c|v]|e] eqn:Hens; try exact Hinv.
    destruct (pd.concat_columns (Data item) c) as [data|e] eqn:Hdata; [|exact Hinv].
    pose proof (concat_columns_columns _ _ _ Hdata) as Hcols.
    rewrite (column_label_named _ (Hnamed c Hens)) in Hcols.
    cbn zeta. destruct (heap s !! Metadata item) as [d|] eqn:Hd; cbn [snd].
    + intros g it md' c' Hg Hmd Hc. cbn [heap datasets] in *.
      destruct (decide (g = group)) as [->|Hne].
      * rewrite get_set_eq in Hg. injection Hg as <-. cbn [Data Metadata] in *.
        rewrite (heap_insert_lookup _ _ _ _ Hd) in Hmd. injection Hmd as <-.
        rewrite Hcols, elem_of_app, list_elem_of_singleton in Hc.
        destruct Hc as [Hc| ->]; [|apply keys_set_self].
        apply keys_set_incl. eapply Hinv; eassumption.
      * rewrite get_set_ne in Hg by congruence.
        eapply (registered_after_update s _ _ _ _ Hinv Hd); eassumption.
    + eapply registered_after_set; [exact Hinv|exact Hitem|reflexivity|].
      intros md' c' Hmd. congruence.
  - rewrite add_value_rows_run.
    destruct (PyDict.get group (datasets s)) as [item|] eqn:Hitem; [|exact Hinv].
    destruct (_assert_indexes_match (Data item) rows); [|exact Hinv].
    destruct (_ensure_is_series rows) as [[r|v]|e] eqn:Hens; try exact Hinv.
    cbn zeta.
    assert (Hcols : forall data, pd.concat_rows (Data item) (pd.to_frame r) = Ok data ->
              pd.columns data =
                (if bool_decide (pd.name r ∈ pd.columns (Data item))
                 then pd.columns (Data item) else pd.columns (Data item) ++ [pd.name r])).
    { intros data Hdata. rewrite (concat_rows_columns _ _ _ Hdata).
      rewrite (column_label_named _ (Hnamed r Hens)). reflexivity. }
    destruct (bool_decide (pd.name r ∈ pd.columns (Data item))) eqn:Hknown.
    + destruct (pd.concat_rows _ _) as [data|e] eqn:Hdata; [|exact Hinv].
      cbn [snd]. eapply registered_after_set; [exact Hinv|exact Hitem|reflexivity|].
      intros md' c' Hmd Hc. cbn [Data] in Hc. rewrite (Hcols data eq_refl) in Hc.
      eapply Hinv; eassumption.
    + destruct (metadata_given md); [|exact Hinv].
      destruct (heap s !! Metadata item) as [d|] eqn:Hd; [|exact Hinv].
      pose proof (registered_after_update s _ _ (pd.name r) md Hinv Hd) as Hinv'.
      destruct (pd.concat_rows _ _) as [data|e] eqn:Hdata; cbn [snd]; [|exact Hinv'].
      eapply (registered_after_set _ group item); [exact Hinv'|exact Hitem|reflexivity|].
      cbn [heap]. intros md' c' Hmd Hc. cbn [Data] in Hc.
      rewrite (heap_insert_lookup _ _ _ _ Hd) in Hmd. injection Hmd as <-.
      rewrite (Hcols data eq_refl), elem_of_app, list_elem_of_singleton in Hc.
      destruct Hc as [Hc| ->]; [|apply keys_set_self].
      apply keys_set_incl. eapply Hinv; eassumption.
Qed.

Lemma columns_registered_single s g0 item0 :
  datasets s = [(g0, item0)] ->
  (forall (md : metadata_dict) c, heap s !! Metadata item0 = Some md ->
                                  c ∈ pd.columns (Data item0) -> c ∈ PyDict.keys md) ->
  columns_registered s.
Proof.
  intros Hds Hnew g item md c Hg Hmd Hc. rewrite Hds in Hg. cbn [PyDict.get] in Hg.
  destruct (decide (g = g0)); [|discriminate]. injection Hg as <-. eapply Hnew; eassumption.
Qed.

Lemma columns_stay_registered_witness :
  columns_registered
    (snd (run (AddValueRows "Group" (ASeries (Example.series 0 0)) Example.some_label)
              Example.initial)).
Proof.
  apply (columns_stay_registered
           (AddValueRows "Group" (ASeries (Example.series 0 0)) Example.some_label)
           Example.initial).
  - intros r [= <-]. discriminate.
  - apply (columns_registered_single _ "Group" Example.initial_item); [vm_compute; reflexivity|].
    intros md c _ Hc. inversion Hc.
Defined.

(** ** [Line._slice] *)

Lemma positions_absent c cols i : c ∉ cols -> Line.positions c cols i = [].
Proof.
  revert i. induction cols as [|c' cols IH]; intros i Hc; [reflexivity|].
  simpl. rewrite not_elem_of_cons in Hc. destruct Hc as [Hne Hc].
  destruct (decide (c' = c)); [congruence|]. apply IH, Hc.
Qed.

Lemma positions_present c cols i :
  c ∈ cols -> exists j js, Line.positions c cols i = j :: js.
Proof.
  revert i. induction cols as [|c' cols IH]; intros i Hc; [inversion Hc|].
  simpl. destruct (decide (c' = c)) as [->|Hne]; [eauto|].
  apply IH. apply elem_of_cons in Hc as [->|Hc]; [contradiction|exact Hc].
Qed.

(** X25: [_slice] fails with a [KeyError] exactly for a label that is no
    column of the table; for a column it returns all index entries of the
    table and as many values as there are index entries. *)
Theorem slice_returns_aligned_data (self : Line.t) (option : pyval) :
  (option ∉ pd.columns (Line.data self) ->
   Line._slice self option = Raise (OtherException "KeyError")) /\
  (option ∈ pd.columns (Line.data self) ->
   exists y,
     Line._slice self option = Ok (pd.keys (pd.rows (Line.data self)), y) /\
     Line.ndarray_length y = length (pd.keys (pd.rows (Line.data self)))).
Proof.
  unfold Line._slice, Line.getitem_values. split.
  - intros Hc. rewrite (positions_absent _ _ _ Hc). reflexivity.
  - intros Hc. destruct (positions_present _ _ 0%nat Hc) as (j & js & ->).
    unfold pd.keys. destruct js as [|j' js]; eexists; (split; [reflexivity|]);
      simpl; rewrite !length_map; reflexivity.
Qed.

(** X26: rows added to an empty group come back from [_slice] as they
    were given: slicing the group's table at the name of the series
    returns the index entries and the values of the series. *)
Theorem added_rows_are_sliced_back group r (md : option metadata) s item d
        title x_axis_label y_axis_label legend_label figure_kwargs line_kwargs :
  PyDict.get group (datasets s) = Some item ->
  heap s !! Metadata item = Some d ->
  pd.columns (Data item) = [] ->
  pd.rows (Data item) = [] ->
  pd.index_names_s r = pd.index_names (Data item) ->
  pd.name r <> PyNone ->
  metadata_given md = true ->
  exists item',
    PyDict.get group (datasets (snd (add_value_rows group (ASeries r) md s))) = Some item' /\
    Line._slice (Line.__init__ (Data item') title x_axis_label y_axis_label legend_label
                               figure_kwargs line_kwargs)
                (pd.name r)
    = Ok (pd.keys (pd.values r), Line.Values1 (map snd (pd.values r))).
Proof.
  intros Hitem Hd Hcols Hrows Hnames Hname Hmd.
  destruct (add_value_rows_to_empty_table group r md s item d Hitem Hd Hcols Hrows Hnames
              Hname Hmd) as [_ Hg].
  eexists. split; [exact Hg|].
  unfold Line._slice, Line.getitem_values, Line.__init__. cbn [Line.data Data].
  rewrite keys_to_frame. unfold pd.to_frame. cbn [pd.columns pd.rows].
  rewrite (column_label_named _ Hname). simpl.
  rewrite decide_True by reflexivity. rewrite map_map. reflexivity.
Qed.

Lemma added_rows_sliced_witness :
  exists item',
    PyDict.get "Group" (datasets (Example.one_call 3 5)) = Some item' /\
    Line._slice (Line.__init__ (Data item') "" "" "" "" None None) (PyStr "MyValueColumn")
    = Ok ([[3]], Line.Values1 [Some 5]).
Proof.
  apply (added_rows_are_sliced_back "Group" (Example.series 3 5) Example.some_label
           Example.initial Example.initial_item Example.key_metadata "" "" "" "" None None).
  - vm_compute. reflexivity.
  - vm_compute. reflexivity.
  - reflexivity.
  - reflexivity.
  - reflexivity.
  - discriminate.
  - reflexivity.
Defined.

Lemma slice_witness :
  Line._slice (Line.__init__ (Data (Example.prepared_item 0 0 1 1)) "" "" "" "" None None)
              (PyStr "NoSuchColumn")
  = Raise (OtherException "KeyError").
Proof.
  apply (proj1 (slice_returns_aligned_data
                  (Line.__init__ (Data (Example.prepared_item 0 0 1 1)) "" "" "" "" None None)
                  (PyStr "NoSuchColumn"))).
  by_computation.
Defined.
